(** * uxarray.grid: face-area cache, integration and antimeridian faces

    A shallow embedding of the [Grid] class of [uxarray/grid.py]:
    [compute_face_areas], the [face_areas] property, [calculate_total_face_area],
    [integrate], [compute_antimeridian_faces] and [split_antimeridian_faces].

    Modelling choices.
    - A float64 is the rational it holds ([Q]); NaN and infinities are
      outside the model.  Differences and comparisons of longitudes are
      those of the rationals.  The reductions [np.sum] and [np.dot], whose
      results depend on rounding and on the order of the additions, are
      taken over an arbitrary arithmetic, [Np.arith].
    - A Python call either returns or raises: [result].  A method of [Grid]
      reads and writes [self] and may print: the monad [M].
    - A numpy array of rank 1 is a [list], of rank 2 a list of rows; the
      field given to [integrate] is an array of any rank, [Np.ndarray].  The
      numpy functions the methods call are written out in [Module Np] with
      the behaviour the methods rely on (negative indices, [IndexError],
      [squeeze], shape checks of [dot] and [pad]).
    - [get_all_face_area_from_coords] is imported from [uxarray/helpers.py];
      the methods are embedded over an arbitrary such function. *)

From Stdlib Require Import String List ZArith QArith Qabs Qminmax Bool Lia Lqa Arith Sorted.
Import ListNotations.

Local Open Scope Z_scope.

(** ** Python values: exceptions and results *)

Module Py.

(** The exception classes the embedded code can raise, by class name.
    [OtherError] is any class raised by code outside [grid.py]. *)
Inductive exn : Type :=
| TypeError
| ValueError
| IndexError
| AttributeError
| OtherError (cls : string).

Inductive result (A : Type) : Type :=
| Ok (a : A)
| Raise (e : exn).
Arguments Ok {A} a.
Arguments Raise {A} e.

Definition bind {A B} (r : result A) (k : A -> result B) : result B :=
  match r with
  | Ok a => k a
  | Raise e => Raise e
  end.

Definition raises {A} (r : result A) : bool :=
  match r with Ok _ => false | Raise _ => true end.

(** [mapM]: a comprehension whose body may raise; the first failure wins. *)
Fixpoint mapM {A B} (f : A -> result B) (l : list A) : result (list B) :=
  match l with
  | [] => Ok []
  | a :: l' =>
      bind (f a) (fun b => bind (mapM f l') (fun bs => Ok (b :: bs)))
  end.

(** [seq[i]] for a Python or numpy sequence of length [n]: an index in
    [-n, n) is accepted, a negative one counts from the end; [position] is
    the slot it names. *)
Definition position (n : nat) (i : Z) : option nat :=
  if (0 <=? i) && (i <? Z.of_nat n) then Some (Z.to_nat i)
  else if (- Z.of_nat n <=? i) && (i <? 0) then Some (Z.to_nat (i + Z.of_nat n))
  else None.

Definition index {A} (l : list A) (i : Z) : result A :=
  match position (length l) i with
  | Some k =>
      match nth_error l k with
      | Some a => Ok a
      | None => Raise IndexError
      end
  | None => Raise IndexError
  end.

End Py.
Import Py.

Notation "x <- c1 ;; c2" := (Py.bind c1 (fun x => c2))
  (at level 61, c1 at next level, right associativity).

(** ** Rational comparisons used as float comparisons *)

Definition Qltb (a b : Q) : bool := (Qnum a * QDen b <? Qnum b * QDen a)%Z.

Definition Qgtb (a b : Q) : bool := Qltb b a.

(** ** The numpy functions called by [grid.py] *)

Module Np.

(** [ndarray.astype(np.int32)], [astype(np.uint32)], [astype(int)]: the
    integer casts wrap around. *)
Definition astype_int32 (z : Z) : Z := (z + 2 ^ 31) mod 2 ^ 32 - 2 ^ 31.
Definition astype_uint32 (z : Z) : Z := z mod 2 ^ 32.
Definition astype_int64 (z : Z) : Z := (z + 2 ^ 63) mod 2 ^ 64 - 2 ^ 63.

(** [a[idx]] with [a] of rank 1 and [idx] an integer array of rank 2:
    every entry is looked up, the result has the shape of [idx]. *)
Definition take {A} (a : list A) (idx : list (list Z)) : result (list (list A)) :=
  mapM (mapM (Py.index a)) idx.

(** [a[rows, :]] with [rows] a tuple of row numbers. *)
Definition take_rows {A} (a : list (list A)) (rows : list Z) : result (list (list A)) :=
  mapM (Py.index a) rows.

(** [np.pad(a, (0, 1), 'wrap')[:-1]] on an array of rank 2: one row and one
    column are appended by wrapping, then the appended row is dropped, so
    each row gets its own first entry appended.  An axis of length 0
    cannot be extended in this mode. *)
Definition pad_wrap_drop {A} (a : list (list A)) : result (list (list A)) :=
  match a with
  | [] => Raise ValueError
  | _ =>
      mapM (fun row => match row with
                       | [] => Raise ValueError
                       | x :: _ => Ok (row ++ [x])
                       end) a
  end.

(** [np.diff] along the last axis: [out[j] = a[j+1] - a[j]]. *)
Fixpoint diff1 (row : list Q) : list Q :=
  match row with
  | a :: (b :: _) as tl => (b - a)%Q :: diff1 tl
  | _ => []
  end.
Definition diff (a : list (list Q)) : list (list Q) := map diff1 a.

Definition abs (a : list (list Q)) : list (list Q) := map (map Qabs) a.

(** [a > t] elementwise. *)
Definition gt (a : list (list Q)) (t : Q) : list (list bool) :=
  map (map (fun v => Qgtb v t)) a.

(** [np.any(m, axis=1)] and [np.all(m, axis=1)]. *)
Definition any_axis1 (m : list (list bool)) : list bool := map (existsb id) m.
Definition all_axis1 (m : list (list bool)) : list bool := map (forallb id) m.

(** [np.argwhere(m)] for [m] of rank 1: the positions holding [True]
    (an array of shape (k, 1); the column is kept implicit). *)
Fixpoint argwhere_from (i : Z) (m : list bool) : list Z :=
  match m with
  | [] => []
  | b :: m' => if b then i :: argwhere_from (i + 1) m' else argwhere_from (i + 1) m'
  end.
Definition argwhere (m : list bool) : list Z := argwhere_from 0 m.

(** [tuple(np.argwhere(m).squeeze())]: [squeeze] removes every axis of
    length 1.  With k = 1 hit the (1, 1) array becomes 0-dimensional and
    [tuple] raises "iteration over a 0-d array"; otherwise the (k, 1)
    array becomes (k,) and [tuple] lists it. *)
Definition tuple_squeeze (hits : list Z) : result (list Z) :=
  match hits with
  | [_] => Raise TypeError
  | _ => Ok hits
  end.

(** A boolean array of rank 0, 1 or 2, as left by [squeeze]. *)
Inductive bool_array : Type :=
| Arr0 (b : bool)
| Arr1 (v : list bool)
| Arr2 (rows : list (list bool)).

(** [a.squeeze()] for [a] of shape (k, m), given by its rows and [m]. *)
Definition squeeze (rows : list (list bool)) (m : nat) : bool_array :=
  match rows, m with
  | [row], 1%nat => Arr0 (hd false row)
  | [row], _ => Arr1 row
  | _, 1%nat => Arr1 (map (fun r => hd false r) rows)
  | _, _ => Arr2 rows
  end.

(** [np.where(c, a, b)], [np.clip(a, lo, hi)], [a == v] elementwise. *)
Definition where_ (c : Q -> bool) (f : Q -> Q) (a : list (list Q)) : list (list Q) :=
  map (map (fun v => if c v then f v else v)) a.
Definition clip (lo hi : Q) (a : list (list Q)) : list (list Q) :=
  map (map (fun v => Qmin (Qmax v lo) hi)) a.
Definition eq_scalar (a : list (list Q)) (v : Q) : list (list bool) :=
  map (map (fun w => Qeq_bool w v)) a.

(** An [ndarray] of floats of any rank: its shape and its entries in
    row-major order.  An array of rank 0 holds one entry. *)
Record ndarray : Type := mkArray {
  shape : list nat;
  data : list Q
}.

Definition size_of (s : list nat) : nat := fold_right Nat.mul 1%nat s.

Definition scalar (v : Q) : ndarray := mkArray [] [v].
Definition vector (l : list Q) : ndarray := mkArray [length l] l.

(** The float64 arithmetic behind [np.sum] and [np.dot].  What the two
    return depends on how numpy and its BLAS round and on the order in
    which they add, which [grid.py] does not decide: the sum of a rank-1
    array, the sum of products of two arrays of one length and the product
    of two floats are left open.  The definitions below fix which entries
    go into which of them, and the shapes. *)
Record arith : Type := mkArith {
  add_reduce : list Q -> Q;
  inner : list Q -> list Q -> Q;
  multiply : Q -> Q -> Q
}.

(** [np.sum] of a rank-1 array. *)
Definition sum (fl : arith) (a : list Q) : Q := add_reduce fl a.

(** The [count] consecutive blocks of [size] entries of [l]. *)
Fixpoint blocks (count size : nat) (l : list Q) : list (list Q) :=
  match count with
  | O => []
  | S count' => firstn size l :: blocks count' size (skipn size l)
  end.

(** Column [j] of a block of [k] rows of [m] entries. *)
Definition strided (k m j : nat) (block : list Q) : list Q :=
  map (fun i => nth (i * m + j)%nat block 0%Q) (seq 0 k).

(** [np.dot(a, b)] for [a] of rank 1.  With [b] of rank 0 it is [a * b];
    with [b] of rank 1 the two lengths must agree and the result has rank
    0; with [b] of rank 2 or more the length of [a] must be that of the
    second-to-last axis of [b], the axis that is summed over.  Otherwise
    numpy raises [ValueError] ("shapes not aligned"). *)
Definition dot (fl : arith) (a : list Q) (b : ndarray) : result ndarray :=
  match rev (shape b) with
  | [] =>
      Ok (mkArray [length a] (map (fun x => multiply fl x (nth 0 (data b) 0%Q)) a))
  | [k] =>
      if Nat.eqb (length a) k then Ok (scalar (inner fl a (data b)))
      else Raise ValueError
  | m :: k :: outer =>
      if Nat.eqb (length a) k
      then Ok (mkArray (rev outer ++ [m])
                 (flat_map
                    (fun block => map (fun j => inner fl a (strided k m j block)) (seq 0 m))
                    (blocks (size_of outer) (k * m)%nat (data b))))
      else Raise ValueError
  end.

(** The arithmetic of the rationals, without rounding: an instance to
    evaluate the methods on sample inputs. *)
Fixpoint zip_mul (a b : list Q) : list Q :=
  match a, b with
  | x :: a', y :: b' => (x * y)%Q :: zip_mul a' b'
  | _, _ => []
  end.

Definition exact : arith :=
  mkArith (fold_right Qplus 0%Q)
          (fun a b => fold_right Qplus 0%Q (zip_mul a b))
          Qmult.

(** [np.zeros(n)]. *)
Definition zeros (n : nat) : list Q := repeat 0%Q n.

End Np.

(** ** The grid object *)

Local Open Scope string_scope.

(** [needle in hay] for two Python strings. *)
Fixpoint str_contains (needle hay : string) : bool :=
  if String.prefix needle hay then true
  else match hay with
       | EmptyString => false
       | String _ hay' => str_contains needle hay'
       end.

(** The attributes of a [Grid] that the embedded methods read or write.
    [Mesh2_node_x_units] is [self.Mesh2_node_x.units]; [topology_dimension]
    is [self.Mesh2.attrs['topology_dimension']]; [Mesh2_node_z] is absent
    ([None]) when the dataset has no such variable, and reading it then
    raises [AttributeError]; [_face_areas] is the cache, [None] after
    [__init__]. *)
Record Grid : Type := mkGrid {
  Mesh2_node_x : list Q;
  Mesh2_node_x_units : string;
  Mesh2_node_y : list Q;
  Mesh2_node_z : option (list Q);
  Mesh2_face_nodes : list (list Z);
  topology_dimension : Z;
  _face_areas : option (list Q)
}.

(** [self.nMesh2_node] and [self.nMesh2_face]: the lengths of the node and
    face dimensions. *)
Definition nMesh2_node (self : Grid) : nat := length (Mesh2_node_x self).
Definition nMesh2_face (self : Grid) : nat := length (Mesh2_face_nodes self).

(** [self._face_areas = v]. *)
Definition set_face_areas (self : Grid) (v : option (list Q)) : Grid :=
  mkGrid (Mesh2_node_x self) (Mesh2_node_x_units self) (Mesh2_node_y self)
         (Mesh2_node_z self) (Mesh2_face_nodes self) (topology_dimension self) v.

(** A method call: it runs on [self], returns or raises, leaves a new
    [self] and the lines it printed. *)
Record outcome (A : Type) : Type := mkOutcome {
  value : result A;
  self_after : Grid;
  stdout : list string
}.
Arguments mkOutcome {A} value self_after stdout.
Arguments value {A} o.
Arguments self_after {A} o.
Arguments stdout {A} o.

Definition M (A : Type) : Type := Grid -> outcome A.

Definition ret {A} (a : A) : M A := fun self => mkOutcome (Ok a) self [].

Definition lift {A} (r : result A) : M A := fun self => mkOutcome r self [].

Definition bindM {A B} (m : M A) (k : A -> M B) : M B :=
  fun self =>
    let o := m self in
    match value o with
    | Ok a =>
        let o' := k a (self_after o) in
        mkOutcome (value o') (self_after o') (stdout o ++ stdout o')
    | Raise e => mkOutcome (Raise e) (self_after o) (stdout o)
    end.

Definition get_self : M Grid := fun self => mkOutcome (Ok self) self [].

Definition assign_face_areas (v : list Q) : M unit :=
  fun self => mkOutcome (Ok tt) (set_face_areas self (Some v)) [].

Definition print (line : string) : M unit :=
  fun self => mkOutcome (Ok tt) self [line].

Notation "x <-- c1 ;;; c2" := (bindM c1 (fun x => c2))
  (at level 61, c1 at next level, right associativity).

(** A dataset of variables to integrate: the data variables in insertion
    order, each with its values, an array of any rank. *)
Definition Dataset : Type := list (string * Np.ndarray).

(** [list(var_ds.keys())] and [var_ds[key].to_numpy()]. *)
Definition keys (var_ds : Dataset) : list string := map fst var_ds.

Fixpoint getitem (var_ds : Dataset) (key : string) : result Np.ndarray :=
  match var_ds with
  | [] => Raise (OtherError "KeyError")
  | (k, v) :: rest => if String.eqb k key then Ok v else getitem rest key
  end.

Definition WARNING : string :=
  "WARNING: The xarray dataset file has more than one variable, using the first variable for integration".

Section FaceAreas.

(** [helpers.get_all_face_area_from_coords(x, y, z, face_nodes, dim,
    quadrature_rule, order, coords_type)]: the area of every face, or an
    exception. *)
Variable get_all_face_area_from_coords :
  list Q -> list Q -> list Q -> list (list Z) -> Z -> string -> Z -> string ->
  result (list Q).

(** The body of the [if self._face_areas is None:] branch up to the call of
    the helper. *)
Definition areas_from_coords (self : Grid) (quadrature_rule : string) (order : Z)
  : result (list Q) :=
  let coords_type :=
    if negb (str_contains "degree" (Mesh2_node_x_units self))
    then "cartesian" else "spherical" in
  let face_nodes := map (map Np.astype_uint32) (Mesh2_face_nodes self) in
  let dim := topology_dimension self in
  let z := Np.zeros (nMesh2_node self) in
  let x := Mesh2_node_x self in
  let y := Mesh2_node_y self in
  z <- (if topology_dimension self >? 2
        then match Mesh2_node_z self with
             | Some z' => Ok z'
             | None => Raise AttributeError
             end
        else Ok z) ;;
  get_all_face_area_from_coords x y z face_nodes dim quadrature_rule order coords_type.

(** [Grid.compute_face_areas(self, quadrature_rule, order)]. *)
Definition compute_face_areas (quadrature_rule : string) (order : Z) : M (list Q) :=
  self <-- get_self ;;;
  match _face_areas self with
  | None =>
      areas <-- lift (areas_from_coords self quadrature_rule order) ;;;
      _ <-- assign_face_areas areas ;;;
      ret areas
  | Some cached => ret cached
  end.

(** The [face_areas] property; [compute_face_areas()] takes its defaults,
    "triangular" and 4.  The value is [self._face_areas] as it then is. *)
Definition face_areas : M (option (list Q)) :=
  self <-- get_self ;;;
  match _face_areas self with
  | None =>
      _ <-- compute_face_areas "triangular" 4 ;;;
      self' <-- get_self ;;;
      ret (_face_areas self')
  | Some a => ret (Some a)
  end.

(** The float64 arithmetic of numpy. *)
Variable fl : Np.arith.

(** [Grid.calculate_total_face_area(self, quadrature_rule, order)]. *)
Definition calculate_total_face_area (quadrature_rule : string) (order : Z) : M Q :=
  face_areas <-- compute_face_areas quadrature_rule order ;;;
  ret (Np.sum fl face_areas).

(** [Grid.integrate(self, var_ds, quadrature_rule, order)]. *)
Definition integrate (var_ds : Dataset) (quadrature_rule : string) (order : Z)
  : M Np.ndarray :=
  face_areas <-- compute_face_areas quadrature_rule order ;;;
  let var_key := keys var_ds in
  _ <-- (if (1 <? length var_key)%nat then print WARNING else ret tt) ;;;
  var_key0 <-- lift (Py.index var_key 0) ;;;
  face_vals <-- lift (getitem var_ds var_key0) ;;;
  lift (Np.dot fl face_areas face_vals).

End FaceAreas.

(** ** Antimeridian faces *)

Local Open Scope Z_scope.

(** Number of columns of a rank-2 array with at least one row. *)
Definition ncols {A} (a : list (list A)) : nat :=
  match a with
  | [] => 0%nat
  | row :: _ => length row
  end.

(** [face_lon]: the longitude gathered for every slot of the face-node
    table.  The table is cast to [int32] as a whole; no slot is left out. *)
Definition face_lon (self : Grid) : result (list (list Q)) :=
  let face_nodes := map (map Np.astype_int32) (Mesh2_face_nodes self) in
  Np.take (Mesh2_node_x self) face_nodes.

(** [crossed_mask_2d] as first assigned: one flag per side of every face. *)
Definition crossed_mask_2d (self : Grid) (threshold : Q) : result (list (list bool)) :=
  face_lon <- face_lon self ;;
  face_lon_pad <- Np.pad_wrap_drop face_lon ;;
  let side_diff := Np.abs (Np.diff face_lon_pad) in
  Ok (Np.gt side_diff threshold).

(** [Grid.compute_antimeridian_faces(self, threshold)].  The method reads
    [self] only.  ([fill_value] is assigned and never used.) *)
Definition compute_antimeridian_faces (self : Grid) (threshold : Q)
  : result (list Z * Np.bool_array) :=
  crossed_mask_2d <- crossed_mask_2d self threshold ;;
  let crossed_mask_1d := Np.any_axis1 crossed_mask_2d in
  crossed_indices <- Np.tuple_squeeze (Np.argwhere crossed_mask_1d) ;;
  rows <- Np.take_rows crossed_mask_2d crossed_indices ;;
  Ok (crossed_indices, Np.squeeze rows (ncols crossed_mask_2d)).

(** The row of [crossed_mask_2d] that belongs to one row of [face_lon]. *)
Definition row_sides (threshold : Q) (row : list Q) : list bool :=
  map (fun v => Qgtb v threshold) (map Qabs (Np.diff1 (row ++ [hd 0%Q row]))).

(** The values an [int32] holds. *)
Definition int32_range (e : Z) : Prop := - 2 ^ 31 <= e < 2 ^ 31.

(** The default [threshold=180.0]. *)
Definition default_threshold : Q := 180%Q.

(** The local variables of [split_antimeridian_faces] when it reaches its
    last statement. *)
Record split_locals : Type := mkLocals {
  face_x : list (list Q);
  face_y : list (list Q);
  left_x : list (list Q);
  right_x : list (list Q);
  left_exclude : list bool;
  right_exclude : list bool
}.

Definition split_candidates (face_x face_y : list (list Q)) : split_locals :=
  let left_x := Np.where_ (fun v => Qgtb v 0) (fun v => (v - 360)%Q) face_x in
  let right_x := Np.where_ (fun v => Qltb v 0) (fun v => (v + 360)%Q) face_x in
  let left_x := Np.clip (-180)%Q 180%Q left_x in
  let right_x := Np.clip (-180)%Q 180%Q right_x in
  let left_exclude := Np.all_axis1 (Np.eq_scalar left_x (-180)%Q) in
  let right_exclude := Np.all_axis1 (Np.eq_scalar right_x 180%Q) in
  mkLocals face_x face_y left_x right_x left_exclude right_exclude.

(** The body of [split_antimeridian_faces] up to its last statement:
    [None] when it left through [return None, None, None], the locals
    otherwise. *)
Definition split_antimeridian_body (self : Grid) : result (option split_locals) :=
  am <- compute_antimeridian_faces self default_threshold ;;
  let antimeridian_faces := fst am in
  if Nat.eqb (length antimeridian_faces) 0 then Ok None
  else
    rows <- Np.take_rows (Mesh2_face_nodes self) antimeridian_faces ;;
    let antimeridian_indices := map (map Np.astype_int64) rows in
    face_x <- Np.take (Mesh2_node_x self) antimeridian_indices ;;
    face_y <- Np.take (Mesh2_node_y self) antimeridian_indices ;;
    Ok (Some (split_candidates face_x face_y)).

(** What the method hands back: the tuple [(None, None, None)], or [None]
    when the body runs to its final [pass]. *)
Inductive split_value : Type :=
| NoneTriple
| PyNone.

(** [Grid.split_antimeridian_faces(self)]. *)
Definition split_antimeridian_faces (self : Grid) : result split_value :=
  locals <- split_antimeridian_body self ;;
  match locals with
  | None => Ok NoneTriple
  | Some _ => Ok PyNone
  end.

(** ** A face-area kernel after the specification *)

Module Kernel.

Local Open Scope string_scope.
Local Open Scope Z_scope.

(** The error of an unsupported rule or order and of a degenerate face, as
    the specification names it. *)
Definition ConfigurationError : exn := OtherError "ConfigurationError".

Definition supported (quadrature_rule : string) (order : Z) : bool :=
  String.eqb quadrature_rule "triangular" && (1 <=? order) && (order <=? 4).

Definition sentinel : Z := Np.astype_uint32 (-1).

Definition valid_nodes (row : list Z) : list Z :=
  filter (fun i => negb (i =? sentinel)) row.

Definition triangle_area (p0 p1 p2 : Q * Q) : Q :=
  let '(x0, y0) := p0 in
  let '(x1, y1) := p1 in
  let '(x2, y2) := p2 in
  (Qabs ((x1 - x0) * (y2 - y0) - (x2 - x0) * (y1 - y0)) / 2)%Q.

Fixpoint fan_area (p0 : Q * Q) (ps : list (Q * Q)) : Q :=
  match ps with
  | p1 :: (p2 :: _) as tl => (triangle_area p0 p1 p2 + fan_area p0 tl)%Q
  | _ => 0%Q
  end.

Definition face_area (x y : list Q) (row : list Z) : result Q :=
  let nodes := valid_nodes row in
  if (length nodes <? 3)%nat then Raise ConfigurationError
  else
    pts <- mapM (fun i => xi <- Py.index x i ;; yi <- Py.index y i ;; Ok (xi, yi)) nodes ;;
    match pts with
    | p0 :: ps => Ok (fan_area p0 ps)
    | [] => Raise ConfigurationError
    end.

(** Modelled from the spec: [get_all_face_area_from_coords] is defined in
    [uxarray/helpers.py], which is not among the sources at hand.  After
    sections 4.1 to 4.3 of the specification: the supported rule is
    "triangular" with orders 1 to 4 and any other combination fails with a
    [ConfigurationError]; the valid nodes of a face are its non-sentinel
    entries in their order (the sentinel -1 reads 4294967295 after the
    cast to [uint32]); a face with fewer than 3 valid nodes fails with a
    [ConfigurationError]; the area of a face is the sum over its fan
    triangles (v0, vi, vi+1), each of them half the magnitude of the cross
    product of two edge vectors.  Only the planar (x, y) triangle is
    evaluated, which every supported order integrates exactly; the
    spherical Jacobian needs trigonometry and is not told apart here. *)
Definition get_all_face_area_from_coords
    (x y z : list Q) (face_nodes : list (list Z)) (dim : Z)
    (quadrature_rule : string) (order : Z) (coords_type : string)
  : result (list Q) :=
  if supported quadrature_rule order
  then mapM (face_area x y) face_nodes
  else Raise ConfigurationError.

End Kernel.

(** ** The antimeridian split as the specification words it *)

Module Spec.

Local Open Scope string_scope.
Local Open Scope Z_scope.

Definition TopologyError : exn := OtherError "TopologyError".

(** [left = where(lon > 0, lon - 360, lon)] and
    [right = where(lon < 0, lon + 360, lon)], clipped to [-180, 180]. *)
Definition clip1 (v : Q) : Q := Qmin (Qmax v (-180)%Q) 180%Q.

Definition left_candidate (lon : list Q) : list Q :=
  map (fun v => clip1 (if Qgtb v 0 then (v - 360)%Q else v)) lon.

Definition right_candidate (lon : list Q) : list Q :=
  map (fun v => clip1 (if Qltb v 0 then (v + 360)%Q else v)) lon.

(** A candidate whose every longitude is exactly -180 (left) or +180
    (right) is left out. *)
Definition replacements (lon : list Q) : list (list Q) :=
  let l := left_candidate lon in
  let r := right_candidate lon in
  (if forallb (fun v => Qeq_bool v (-180)%Q) l then [] else [l]) ++
  (if forallb (fun v => Qeq_bool v 180%Q) r then [] else [r]).

(** The mapping from every crossing face to its replacement polygons; a
    crossing face with none is a [TopologyError]. *)
Definition split_antimeridian_faces (self : Grid)
  : result (list (Z * list (list Q))) :=
  lon <- face_lon self ;;
  mask <- crossed_mask_2d self default_threshold ;;
  mapM (fun i =>
          row <- Py.index lon i ;;
          match replacements row with
          | [] => Raise TopologyError
          | ps => Ok (i, ps)
          end)
       (Np.argwhere (Np.any_axis1 mask)).

(** A side of a face: two cyclically consecutive longitudes of its row. *)
Definition side_crosses (row : list Q) (threshold : Q) (j : nat) : Prop :=
  (threshold < Qabs (nth (S j mod length row) row 0 - nth j row 0))%Q.

End Spec.

(** ** Sample grids *)

Module Samples.

Local Open Scope string_scope.
Local Open Scope Z_scope.

(** The unit square and a 2 by 1 rectangle next to it, in cartesian
    units. *)
Definition two_quads : Grid :=
  mkGrid [0; 1; 1; 0; 3; 3]%Q "m" [0; 0; 1; 1; 0; 1]%Q None
         [[0; 1; 2; 3]; [1; 4; 5; 2]] 2 None.

(** [two_quads] after its areas were computed once. *)
Definition two_quads_cached : Grid :=
  self_after
    (compute_face_areas Kernel.get_all_face_area_from_coords "triangular" 4 two_quads).

(** One face through the given longitudes, as [Grid(vertices)] builds
    it. *)
Definition one_face (lon : list Q) : Grid :=
  mkGrid lon "degrees_east" (map (fun _ => 0%Q) lon) None
         [map Z.of_nat (seq 0 (length lon))] 2 None.

(** Two quadrilaterals across the antimeridian. *)
Definition two_crossing : Grid :=
  mkGrid [170; -170; -170; 170; 175; -175]%Q "degrees_east"
         [0; 0; 10; 10; 20; 20]%Q None
         [[0; 1; 2; 3]; [3; 2; 5; 4]] 2 None.

(** Two triangles whose nodes all lie on the seam itself. *)
Definition on_seam : Grid :=
  mkGrid [-180; 180; -180; 180]%Q "degrees_east"
         [0; 10; 20; 30]%Q None
         [[0; 1; 2]; [1; 2; 3]] 2 None.

(** Two triangles east of 170 degrees in a table four slots wide; the
    last node of the grid lies west of -170 degrees. *)
Definition padded_triangles : Grid :=
  mkGrid [170; 175; 172; 178; -175]%Q "degrees_east"
         [0; 0; 5; 5; 0]%Q None
         [[0; 1; 2; -1]; [1; 3; 2; -1]] 2 None.

End Samples.

(** The length of the cache: an array of one area per face, as long as the
    helper returns one area per row of the table it is given. *)
Definition kernel_per_face
    (kernel : list Q -> list Q -> list Q -> list (list Z) -> Z -> string -> Z ->
              string -> result (list Q)) : Prop :=
  forall x y z face_nodes dim quadrature_rule order coords_type areas,
    kernel x y z face_nodes dim quadrature_rule order coords_type = Ok areas ->
    length areas = length face_nodes.

Definition cache_per_face (self : Grid) : Prop :=
  forall cached, _face_areas self = Some cached -> length cached = nMesh2_face self.

(** ** Construction and encoding *)

Local Open Scope string_scope.
Local Open Scope Z_scope.
Local Open Scope list_scope.

(** [self.ds]: the dataset of a grid, that is the grid without its cache. *)
Record MeshDataset : Type := mkDs {
  ds_node_x : list Q;
  ds_node_x_units : string;
  ds_node_y : list Q;
  ds_node_z : option (list Q);
  ds_face_nodes : list (list Z);
  ds_topology_dimension : Z
}.

Definition ds (self : Grid) : MeshDataset :=
  mkDs (Mesh2_node_x self) (Mesh2_node_x_units self) (Mesh2_node_y self)
       (Mesh2_node_z self) (Mesh2_face_nodes self) (topology_dimension self).

(** [__init_grid_var_attrs__] after [self._face_areas = None]: the variables
    of the dataset become attributes of the grid, the cache is empty. *)
Definition grid_of (d : MeshDataset) : Grid :=
  mkGrid (ds_node_x d) (ds_node_x_units d) (ds_node_y d) (ds_node_z d)
         (ds_face_nodes d) (ds_topology_dimension d) None.

Definition RuntimeError : exn := OtherError "RuntimeError".

(** [self.ds_var_names] as [__init_ds_var_names__] sets it. *)
Definition var_names : Type := list (string * string).

Definition init_ds_var_names : var_names :=
  [("Mesh2", "Mesh2");
   ("Mesh2_node_x", "Mesh2_node_x");
   ("Mesh2_node_y", "Mesh2_node_y");
   ("Mesh2_node_z", "Mesh2_node_z");
   ("Mesh2_face_nodes", "Mesh2_face_nodes");
   ("nMesh2_node", "nMesh2_node");
   ("nMesh2_face", "nMesh2_face");
   ("nMaxMesh2_face_nodes", "nMaxMesh2_face_nodes")].

(** An array of rank 2 as a list of rows: the rows have one length. *)
Definition rectangular (vertices : list (list Q)) : Prop :=
  Forall (fun row => length row = length (hd [] vertices)) vertices.

(** [vertices.transpose()[k]] for an array of rank 2 with [d] columns: the
    column [k], or [IndexError] when there is none. *)
Definition column (d : nat) (k : nat) (vertices : list (list Q)) : result (list Q) :=
  if (k <? d)%nat then Ok (map (fun row => nth k row 0%Q) vertices)
  else Raise IndexError.

(** [Grid.__from_vert__(self)] with [self.vertices] an [ndarray] of rank 2,
    one row per vertex: the dataset it leaves in [self.ds]. *)
Definition from_vert (vertices : list (list Q)) : result MeshDataset :=
  row0 <- Py.index vertices 0 ;;
  let size := length row0 in
  let x_units := "degrees_east" in
  x_coord <- column size 0 vertices ;;
  y_coord <- column size 1 vertices ;;
  z_coord <- (if (2 <? size)%nat
              then z <- column size 2 vertices ;; Ok (Some z)
              else Ok None) ;;
  let num_nodes := length x_coord in
  let connectivity := [map Z.of_nat (seq 0 num_nodes)] in
  Ok (mkDs x_coord x_units y_coord z_coord connectivity (Z.of_nat size)).

(** What a Python list or tuple given as vertices can hold: a float, a
    numpy float, a nested list or tuple of floats, or a numpy array. *)
Inductive item : Type :=
| PyFloat (v : Q)
| NpFloat (v : Q)
| PyList (coords : list Q)
| NdRow (coords : list Q).

(** [x.size]: the numpy values have the attribute, the Python ones do
    not. *)
Definition item_size (x : item) : result nat :=
  match x with
  | NpFloat _ => Ok 1%nat
  | NdRow coords => Ok (length coords)
  | PyFloat _ | PyList _ => Raise AttributeError
  end.

(** [items.transpose()]: a list or tuple has no such attribute. *)
Definition sequence_transpose (items : list item) : result (list (list Q)) :=
  Raise AttributeError.

(** [Grid.__from_vert__(self)] with [self.vertices] a Python list or
    tuple, statement by statement as for an array. *)
Definition from_vert_sequence (items : list item) : result MeshDataset :=
  row0 <- Py.index items 0 ;;
  size <- item_size row0 ;;
  let x_units := "degrees_east" in
  columns <- sequence_transpose items ;;
  x_coord <- Py.index columns 0 ;;
  columns <- sequence_transpose items ;;
  y_coord <- Py.index columns 1 ;;
  z_coord <- (if (2 <? size)%nat
              then columns <- sequence_transpose items ;;
                   z <- Py.index columns 2 ;; Ok (Some z)
              else Ok None) ;;
  let num_nodes := length x_coord in
  let connectivity := [map Z.of_nat (seq 0 num_nodes)] in
  Ok (mkDs x_coord x_units y_coord z_coord connectivity (Z.of_nat size)).

Section Construction.

(** What [Grid.__init__] is given when it is an [xarray.Dataset], and the
    helpers it is passed to: [parse_grid_type] and the four readers. *)
Variable Raw : Type.
Variable parse_grid_type : Raw -> result string.
Variable _read_exodus : Raw -> var_names -> result MeshDataset.
Variable _read_scrip : Raw -> result MeshDataset.
Variable _read_ugrid : Raw -> var_names -> result (MeshDataset * var_names).
Variable _read_shpfile : Raw -> result MeshDataset.

(** [Grid.__from_ds__(self, dataset)]: [self.ds] and [self.ds_var_names]
    afterwards.  ([dataset.close()] acts on the caller's object only.) *)
Definition from_ds (mesh_type : string) (ds_var_names : var_names) (dataset : Raw)
  : result (MeshDataset * var_names) :=
  if String.eqb mesh_type "exo" then
    d <- _read_exodus dataset ds_var_names ;; Ok (d, ds_var_names)
  else if String.eqb mesh_type "scrip" then
    d <- _read_scrip dataset ;; Ok (d, ds_var_names)
  else if String.eqb mesh_type "ugrid" then
    _read_ugrid dataset ds_var_names
  else if String.eqb mesh_type "shp" then
    d <- _read_shpfile dataset ;; Ok (d, ds_var_names)
  else Raise RuntimeError.

(** The argument of [Grid(dataset)] by its Python type. *)
Inductive init_input : Type :=
| NdArray (vertices : list (list Q))
| Sequence (items : list item)
| XrDataset (dataset : Raw)
| OtherInput.

(** A grid as [__init__] leaves it. *)
Record constructed : Type := mkConstructed {
  grid : Grid;
  ds_var_names : var_names;
  source_grid : option string;
  mesh_type : option string
}.

(** [Grid.__init__(self, dataset)] without keyword arguments. *)
Definition init (dataset : init_input) : result constructed :=
  match dataset with
  | NdArray vertices =>
      d <- from_vert vertices ;;
      Ok (mkConstructed (grid_of d) init_ds_var_names (Some "From vertices") None)
  | Sequence items =>
      d <- from_vert_sequence items ;;
      Ok (mkConstructed (grid_of d) init_ds_var_names (Some "From vertices") None)
  | XrDataset dataset =>
      mesh_type <- parse_grid_type dataset ;;
      r <- from_ds mesh_type init_ds_var_names dataset ;;
      Ok (mkConstructed (grid_of (fst r)) (snd r) None (Some mesh_type))
  | OtherInput => Raise RuntimeError
  end.

End Construction.

Section Encoding.

Variable kernel :
  list Q -> list Q -> list Q -> list (list Z) -> Z -> string -> Z -> string ->
  result (list Q).

(** The dataset an encoder hands back, the three encoders, and the
    [ds_var_names] of the grid. *)
Variable Encoded : Type.
Variable _encode_ugrid : MeshDataset -> result Encoded.
Variable _encode_exodus : MeshDataset -> var_names -> result Encoded.
Variable _encode_scrip :
  list (list Z) -> list Q -> list Q -> option (list Q) -> result Encoded.
Variable self_ds_var_names : var_names.

(** [Grid.encode_as(self, grid_type)]. *)
Definition encode_as (grid_type : string) : M Encoded :=
  self <-- get_self ;;;
  if String.eqb grid_type "ugrid" then
    lift (_encode_ugrid (ds self))
  else if String.eqb grid_type "exodus" then
    lift (_encode_exodus (ds self) self_ds_var_names)
  else if String.eqb grid_type "scrip" then
    areas <-- face_areas kernel ;;;
    lift (_encode_scrip (Mesh2_face_nodes self) (Mesh2_node_x self)
                        (Mesh2_node_y self) areas)
  else lift (Raise RuntimeError).

End Encoding.

(** Two rows with the same sides in the same cyclic order: [rotate1] moves
    the first node of a face to the end. *)
Definition rotate1 {A} (row : list A) : list A :=
  match row with
  | [] => []
  | a :: rest => rest ++ [a]
  end.

(** The grid with another face-node table. *)
Definition with_face_nodes (self : Grid) (face_nodes : list (list Z)) : Grid :=
  mkGrid (Mesh2_node_x self) (Mesh2_node_x_units self) (Mesh2_node_y self)
         (Mesh2_node_z self) face_nodes (topology_dimension self) (_face_areas self).

(** An entry of the face-node table that names a node after the cast to
    [int32]. *)
Definition names_a_node (self : Grid) (e : Z) : Prop :=
  position (nMesh2_node self) (Np.astype_int32 e) <> None.

(** The longitudes of a row lie in [lo, hi]. *)
Definition within (lo hi : Q) (row : list Q) : Prop :=
  Forall (fun v => (lo <= v <= hi)%Q) row.

(** ** Further sample grids, readers and encoders *)

Module MoreSamples.

Local Open Scope string_scope.
Local Open Scope Z_scope.

(** A grid that says it has three coordinates and has no [Mesh2_node_z]. *)
Definition no_z : Grid :=
  mkGrid [0; 1; 1; 0]%Q "m" [0; 0; 1; 1]%Q None [[0; 1; 2; 3]] 3 None.

(** Two faces, of which the first only crosses the antimeridian. *)
Definition one_of_two_crossing : Grid :=
  mkGrid [170; -170; -170; 170; 10; 20; 20; 10]%Q "degrees_east"
         [0; 0; 10; 10; 0; 0; 10; 10]%Q None
         [[0; 1; 2; 3]; [4; 5; 6; 7]] 2 None.

(** Two crossing triangles in a table four slots wide whose fill value is
    that of an unsigned 32-bit -1. *)
Definition wide_fill : Grid :=
  mkGrid [170; -170; 175; -175]%Q "degrees_east" [0; 0; 10; 10]%Q None
         [[0; 1; 3; 4294967295]; [2; 3; 1; 4294967295]] 2 None.

(** Four vertices across the antimeridian, and four east of Greenwich. *)
Definition crossing_vertices : list (list Q) :=
  [[170; 0]; [-170; 0]; [-175; 10]; [175; 10]]%Q.

Definition eastern_vertices : list (list Q) :=
  [[10; 0]; [20; 0]; [30; 10]; [40; 10]]%Q.

(** Readers and encoders that hand back a fixed dataset and the name of
    the format. *)
Definition unit_square : MeshDataset :=
  mkDs [0; 1; 1; 0]%Q "m" [0; 0; 1; 1]%Q None [[0; 1; 2; 3]] 2.

Definition read_exodus (_ : unit) (_ : var_names) : result MeshDataset := Ok unit_square.
Definition read_scrip (_ : unit) : result MeshDataset := Ok unit_square.
Definition read_ugrid (_ : unit) (names : var_names)
  : result (MeshDataset * var_names) := Ok (unit_square, names).
Definition read_shpfile (_ : unit) : result MeshDataset := Ok unit_square.

Definition encode_ugrid (_ : MeshDataset) : result string := Ok "ugrid".
Definition encode_exodus (_ : MeshDataset) (_ : var_names) : result string := Ok "exodus".
Definition encode_scrip (_ : list (list Z)) (_ _ : list Q) (areas : option (list Q))
  : result string :=
  match areas with
  | Some _ => Ok "scrip"
  | None => Raise TypeError
  end.

End MoreSamples.

(** * Properties *)

(** ** Comparisons *)

Lemma Qltb_lt (a b : Q) : Qltb a b = true <-> (a < b)%Q.
Proof. unfold Qltb, Qlt. apply Z.ltb_lt. Qed.

Lemma Qltb_ge (a b : Q) : Qltb a b = false <-> (b <= a)%Q.
Proof. unfold Qltb, Qle. rewrite Z.ltb_ge. reflexivity. Qed.

Lemma Qgtb_gt (a b : Q) : Qgtb a b = true <-> (b < a)%Q.
Proof. apply Qltb_lt. Qed.

(** ** The method monad *)

Lemma outcome_eta {A} (o : outcome A) :
  mkOutcome (value o) (self_after o) (stdout o) = o.
Proof. destruct o. reflexivity. Qed.

Lemma bindM_ok {A B} (m : M A) (k : A -> M B) (self : Grid) (a : A)
    (self' : Grid) (out : list string) :
  m self = mkOutcome (Ok a) self' out ->
  bindM m k self
  = mkOutcome (value (k a self')) (self_after (k a self')) (out ++ stdout (k a self')).
Proof. intros H. unfold bindM. rewrite H. reflexivity. Qed.

Lemma bindM_raise {A B} (m : M A) (k : A -> M B) (self : Grid) (e : exn)
    (self' : Grid) (out : list string) :
  m self = mkOutcome (Raise e) self' out ->
  bindM m k self = mkOutcome (Raise e) self' out.
Proof. intros H. unfold bindM. rewrite H. reflexivity. Qed.

(** ** The face-area cache *)

Section FaceAreaFacts.

Variable kernel :
  list Q -> list Q -> list Q -> list (list Z) -> Z -> string -> Z -> string ->
  result (list Q).

Variable fl : Np.arith.

(** The two branches of [compute_face_areas], as equations. *)
Lemma compute_face_areas_cached self cached quadrature_rule order :
  _face_areas self = Some cached ->
  compute_face_areas kernel quadrature_rule order self = mkOutcome (Ok cached) self [].
Proof.
  intros Hc. unfold compute_face_areas, bindM, get_self; cbn.
  rewrite Hc. reflexivity.
Qed.

Lemma compute_face_areas_fresh self areas quadrature_rule order :
  _face_areas self = None ->
  areas_from_coords kernel self quadrature_rule order = Ok areas ->
  compute_face_areas kernel quadrature_rule order self
  = mkOutcome (Ok areas) (set_face_areas self (Some areas)) [].
Proof.
  intros Hc Ha. unfold compute_face_areas, bindM, get_self; cbn.
  rewrite Hc. unfold lift; cbn. rewrite Ha. reflexivity.
Qed.

Lemma compute_face_areas_raises self e quadrature_rule order :
  _face_areas self = None ->
  areas_from_coords kernel self quadrature_rule order = Raise e ->
  compute_face_areas kernel quadrature_rule order self = mkOutcome (Raise e) self [].
Proof.
  intros Hc Ha. unfold compute_face_areas, bindM, get_self; cbn.
  rewrite Hc. unfold lift; cbn. rewrite Ha. reflexivity.
Qed.

(** [compute_face_areas] never prints. *)
Lemma compute_face_areas_silent self quadrature_rule order :
  stdout (compute_face_areas kernel quadrature_rule order self) = [].
Proof.
  destruct (_face_areas self) as [c|] eqn:Hc.
  - rewrite (compute_face_areas_cached _ _ _ _ Hc). reflexivity.
  - destruct (areas_from_coords kernel self quadrature_rule order) as [a|e] eqn:Ha.
    + rewrite (compute_face_areas_fresh _ _ _ _ Hc Ha). reflexivity.
    + rewrite (compute_face_areas_raises _ _ _ _ Hc Ha). reflexivity.
Qed.

(** What [integrate] does once the areas are known. *)
Lemma integrate_unfold var_ds quadrature_rule order self areas :
  value (compute_face_areas kernel quadrature_rule order self) = Ok areas ->
  forall name vals rest, var_ds = (name, vals) :: rest ->
  integrate kernel fl var_ds quadrature_rule order self
  = mkOutcome (Np.dot fl areas vals)
              (self_after (compute_face_areas kernel quadrature_rule order self))
              (match rest with [] => [] | _ => [WARNING] end).
Proof.
  intros Ha name vals rest ->.
  unfold integrate. unfold bindM at 1. rewrite Ha.
  pose proof (compute_face_areas_silent self quadrature_rule order) as Hs.
  rewrite Hs. cbn [app keys map fst length].
  destruct rest as [|f rest]; cbn; rewrite String.eqb_refl; cbn; reflexivity.
Qed.

Lemma integrate_raises var_ds quadrature_rule order self e :
  value (compute_face_areas kernel quadrature_rule order self) = Raise e ->
  integrate kernel fl var_ds quadrature_rule order self
  = mkOutcome (Raise e)
              (self_after (compute_face_areas kernel quadrature_rule order self)) [].
Proof.
  intros Ha. unfold integrate. unfold bindM at 1. rewrite Ha.
  rewrite compute_face_areas_silent. reflexivity.
Qed.

End FaceAreaFacts.

Lemma dot_vector (fl : Np.arith) (a v : list Q) :
  Np.dot fl a (Np.vector v)
  = if Nat.eqb (length a) (length v) then Ok (Np.scalar (Np.inner fl a v))
    else Raise ValueError.
Proof. reflexivity. Qed.

Lemma dot_mismatch (fl : Np.arith) (a b : list Q) :
  length a <> length b -> Np.dot fl a (Np.vector b) = Raise ValueError.
Proof.
  intros H. rewrite dot_vector.
  destruct (Nat.eqb_spec (length a) (length b)); [contradiction | reflexivity].
Qed.

(** The shapes [np.dot] accepts and refuses for a first argument of rank 1
    and length [n]. *)
Lemma dot_rank0 (fl : Np.arith) (a : list Q) (b : Np.ndarray) :
  Np.shape b = [] ->
  exists r, Np.dot fl a b = Ok r /\ Np.shape r = [length a].
Proof.
  intros Hs. unfold Np.dot. rewrite Hs. cbn [rev]. eexists. split; reflexivity.
Qed.

Lemma dot_rank1 (fl : Np.arith) (a : list Q) (b : Np.ndarray) (k : nat) :
  Np.shape b = [k] ->
  Np.dot fl a b
  = if Nat.eqb (length a) k then Ok (Np.scalar (Np.inner fl a (Np.data b)))
    else Raise ValueError.
Proof. intros Hs. unfold Np.dot. rewrite Hs. reflexivity. Qed.

Lemma dot_rank2 (fl : Np.arith) (a : list Q) (b : Np.ndarray)
    (outer : list nat) (k m : nat) :
  Np.shape b = outer ++ [k; m] ->
  (length a <> k -> Np.dot fl a b = Raise ValueError) /\
  (length a = k ->
   exists r, Np.dot fl a b = Ok r /\ Np.shape r = outer ++ [m]).
Proof.
  intros Hs. unfold Np.dot. rewrite Hs.
  replace (outer ++ [k; m]) with ((outer ++ [k]) ++ [m])
    by (rewrite <- app_assoc; reflexivity).
  rewrite !rev_unit. split.
  - intros Hne. destruct (Nat.eqb_spec (length a) k); [contradiction | reflexivity].
  - intros He. rewrite He, Nat.eqb_refl. eexists. split; [reflexivity|].
    cbn [Np.shape]. rewrite rev_involutive. reflexivity.
Qed.

Lemma areas_from_coords_length kernel self quadrature_rule order areas :
  kernel_per_face kernel ->
  areas_from_coords kernel self quadrature_rule order = Ok areas ->
  length areas = nMesh2_face self.
Proof.
  intros Hk. unfold areas_from_coords.
  destruct (topology_dimension self >? 2).
  - destruct (Mesh2_node_z self); cbn; [|discriminate].
    intros H. apply Hk in H. rewrite length_map in H. exact H.
  - cbn. intros H. apply Hk in H. rewrite length_map in H. exact H.
Qed.

Lemma compute_face_areas_length kernel self quadrature_rule order areas :
  kernel_per_face kernel ->
  cache_per_face self ->
  value (compute_face_areas kernel quadrature_rule order self) = Ok areas ->
  length areas = nMesh2_face self.
Proof.
  intros Hk Hc.
  destruct (_face_areas self) as [c|] eqn:E.
  - rewrite (compute_face_areas_cached kernel _ _ _ _ E). cbn.
    intros [= <-]. apply Hc, E.
  - destruct (areas_from_coords kernel self quadrature_rule order) as [a|e] eqn:Ha.
    + rewrite (compute_face_areas_fresh kernel _ _ _ _ E Ha). cbn.
      intros [= <-]. eapply areas_from_coords_length; eauto.
    + rewrite (compute_face_areas_raises kernel _ _ _ _ E Ha). cbn. discriminate.
Qed.

(** The kernel written after the specification returns one area per face. *)
Lemma mapM_length {A B} (f : A -> result B) (l : list A) (bs : list B) :
  mapM f l = Ok bs -> length bs = length l.
Proof.
  revert bs. induction l as [|a l IH]; cbn; intros bs.
  - intros [= <-]. reflexivity.
  - destruct (f a) as [b|e]; cbn; [|discriminate].
    destruct (mapM f l) as [bs'|e]; cbn; [|discriminate].
    intros [= <-]. cbn. f_equal. apply IH. reflexivity.
Qed.

Lemma spec_kernel_per_face : kernel_per_face Kernel.get_all_face_area_from_coords.
Proof.
  intros x y z fn dim r o c areas. unfold Kernel.get_all_face_area_from_coords.
  destruct (Kernel.supported r o); [|discriminate].
  apply mapM_length.
Qed.

(** ** Claims on the face-area cache and on integration *)

Section CacheClaims.

Variable kernel :
  list Q -> list Q -> list Q -> list (list Z) -> Z -> string -> Z -> string ->
  result (list Q).

Variable fl : Np.arith.

(** C1.  Once a call of [compute_face_areas] has filled the cache, a later
    call with any other rule and order does not recompute: it returns the
    array of the first call and leaves the grid as it is, whatever the
    helper would return for the new rule and order. *)
Theorem compute_face_areas_returns_stale_cache
    (self : Grid) (rule1 rule2 : string) (order1 order2 : Z) (areas1 : list Q) :
  _face_areas self = None ->
  areas_from_coords kernel self rule1 order1 = Ok areas1 ->
  let self1 := self_after (compute_face_areas kernel rule1 order1 self) in
  _face_areas self1 = Some areas1 /\
  compute_face_areas kernel rule2 order2 self1 = mkOutcome (Ok areas1) self1 [].
Proof.
  intros Hnone Hareas self1.
  assert (Hc : _face_areas self1 = Some areas1).
  { unfold self1. rewrite (compute_face_areas_fresh kernel _ _ _ _ Hnone Hareas).
    reflexivity. }
  split; [exact Hc|].
  apply compute_face_areas_cached, Hc.
Qed.

(** C4.  With a filled cache a rule and order that the helper rejects are
    not reported: the call returns the cached array and leaves the grid
    untouched.  With an empty cache the exception of the helper comes out
    and the cache stays empty. *)
Theorem compute_face_areas_unsupported_order
    (self : Grid) (rule : string) (order : Z) (e : exn) :
  areas_from_coords kernel self rule order = Raise e ->
  (forall cached, _face_areas self = Some cached ->
     compute_face_areas kernel rule order self = mkOutcome (Ok cached) self []) /\
  (_face_areas self = None ->
     compute_face_areas kernel rule order self = mkOutcome (Raise e) self []).
Proof.
  intros He. split.
  - intros cached Hc. apply compute_face_areas_cached, Hc.
  - intros Hn. apply compute_face_areas_raises; assumption.
Qed.

(** C8.  On a grid with an empty cache the first read of [face_areas]
    computes the areas with rule "triangular" and order 4, stores them and
    returns them; every later read returns the stored array and changes
    nothing. *)
Theorem face_areas_first_then_cached (self : Grid) (areas : list Q) :
  _face_areas self = None ->
  areas_from_coords kernel self "triangular" 4 = Ok areas ->
  let first := face_areas kernel self in
  value first = Ok (Some areas) /\
  self_after first = set_face_areas self (Some areas) /\
  face_areas kernel (self_after first)
  = mkOutcome (Ok (Some areas)) (self_after first) [].
Proof.
  intros Hn Ha first.
  assert (Hfirst : first = mkOutcome (Ok (Some areas)) (set_face_areas self (Some areas)) []).
  { unfold first, face_areas.
    rewrite (bindM_ok _ _ _ self self [] eq_refl), Hn.
    rewrite (bindM_ok _ _ _ _ _ _ (compute_face_areas_fresh kernel _ _ _ _ Hn Ha)).
    reflexivity. }
  rewrite Hfirst. cbn [value self_after].
  repeat split.
Qed.

(** C3, as the code has it.  [integrate] hands the first field to
    [np.dot] as it is, of whatever rank.  With the areas one per face, a
    field of rank 1 whose length is not the number of faces raises the
    [ValueError] of [np.dot], and so does a field of rank 2 or more whose
    second-to-last axis is not that long.  A field of rank 0 and a field of
    rank 2 or more whose second-to-last axis has the length of the areas
    are accepted, whatever the lengths of their other axes: the result then
    is an array, of one entry per face for rank 0 and of the shape of the
    field without the summed axis otherwise. *)
Theorem integrate_shape_error
    (self : Grid) (name : string) (field : Np.ndarray) (rest : Dataset)
    (rule : string) (order : Z) (areas : list Q) :
  value (compute_face_areas kernel rule order self) = Ok areas ->
  length areas = nMesh2_face self ->
  let returned := value (integrate kernel fl ((name, field) :: rest) rule order self) in
  (forall k, Np.shape field = [k] -> k <> nMesh2_face self ->
     returned = Raise ValueError) /\
  (forall outer k m, Np.shape field = outer ++ [k; m] -> k <> nMesh2_face self ->
     returned = Raise ValueError) /\
  (Np.shape field = [nMesh2_face self] ->
     returned = Ok (Np.scalar (Np.inner fl areas (Np.data field)))) /\
  (Np.shape field = [] ->
     exists r, returned = Ok r /\ Np.shape r = [nMesh2_face self]) /\
  (forall outer m, Np.shape field = outer ++ [nMesh2_face self; m] ->
     exists r, returned = Ok r /\ Np.shape r = outer ++ [m]).
Proof.
  intros Ha Hlen returned. unfold returned.
  rewrite (integrate_unfold kernel fl _ _ _ _ _ Ha name field rest eq_refl).
  cbn [value]. rewrite <- Hlen.
  split; [|split; [|split; [|split]]].
  - intros k Hs Hne. rewrite (dot_rank1 fl areas field k Hs).
    destruct (Nat.eqb_spec (length areas) k); [congruence | reflexivity].
  - intros outer k m Hs Hne.
    apply (proj1 (dot_rank2 fl areas field outer k m Hs)). congruence.
  - intros Hs. rewrite (dot_rank1 fl areas field _ Hs), Nat.eqb_refl. reflexivity.
  - intros Hs. apply dot_rank0, Hs.
  - intros outer m Hs.
    apply (proj2 (dot_rank2 fl areas field outer _ m Hs)). reflexivity.
Qed.

(** C6.  A dataset with more than one variable is integrated as if it held
    its first variable only; once the areas are there the warning is
    printed and the result is that of [np.dot] on the areas and the first
    field, for a field of rank 1 and of the right length the sum of their
    products.  The other variables never make the call fail. *)
Theorem integrate_several_fields
    (self : Grid) (name : string) (vals : Np.ndarray) (rest : Dataset)
    (rule : string) (order : Z) :
  (1 < length ((name, vals) :: rest))%nat ->
  let several := integrate kernel fl ((name, vals) :: rest) rule order self in
  let single := integrate kernel fl [(name, vals)] rule order self in
  value several = value single /\
  self_after several = self_after single /\
  (forall areas, value (compute_face_areas kernel rule order self) = Ok areas ->
     stdout several = [WARNING] /\
     value several = Np.dot fl areas vals /\
     (forall v, vals = Np.vector v -> length v = length areas ->
      value several = Ok (Np.scalar (Np.inner fl areas v)))).
Proof.
  intros Hlen several single.
  destruct rest as [|f rest]; [cbn in Hlen; lia|].
  destruct (value (compute_face_areas kernel rule order self)) as [areas|e] eqn:Ha.
  - unfold several, single.
    rewrite (integrate_unfold kernel fl _ _ _ _ _ Ha name vals (f :: rest) eq_refl).
    rewrite (integrate_unfold kernel fl _ _ _ _ _ Ha name vals [] eq_refl).
    cbn [value self_after stdout].
    split; [reflexivity|]. split; [reflexivity|].
    intros areas' [= <-]. split; [reflexivity|]. split; [reflexivity|].
    intros v -> Hl. rewrite dot_vector, Hl, Nat.eqb_refl. reflexivity.
  - unfold several, single.
    rewrite !(integrate_raises kernel fl _ _ _ _ _ Ha).
    cbn [value self_after].
    split; [reflexivity|]. split; [reflexivity|].
    intros areas' [=].
Qed.

End CacheClaims.

Module CacheWitnesses.

Local Open Scope string_scope.
Local Open Scope Z_scope.

Lemma compute_face_areas_returns_stale_cache_witness :
  _face_areas Samples.two_quads_cached = Some [4 # 4; 8 # 4]%Q /\
  compute_face_areas Kernel.get_all_face_area_from_coords "triangular" 1
    Samples.two_quads_cached
  = mkOutcome (Ok [4 # 4; 8 # 4]%Q) Samples.two_quads_cached [].
Proof.
  exact (compute_face_areas_returns_stale_cache
           Kernel.get_all_face_area_from_coords Samples.two_quads
           "triangular" "triangular" 4 1 [4 # 4; 8 # 4]%Q eq_refl eq_refl).
Defined.

Lemma compute_face_areas_unsupported_order_witness :
  Kernel.supported "triangular" 99 = false /\
  compute_face_areas Kernel.get_all_face_area_from_coords "triangular" 99
    Samples.two_quads_cached
  = mkOutcome (Ok [4 # 4; 8 # 4]%Q) Samples.two_quads_cached [] /\
  compute_face_areas Kernel.get_all_face_area_from_coords "triangular" 99
    Samples.two_quads
  = mkOutcome (Raise Kernel.ConfigurationError) Samples.two_quads [].
Proof.
  split; [reflexivity|].
  split.
  - exact (proj1 (compute_face_areas_unsupported_order
                    Kernel.get_all_face_area_from_coords Samples.two_quads_cached
                    "triangular" 99 Kernel.ConfigurationError eq_refl)
                 [4 # 4; 8 # 4]%Q eq_refl).
  - exact (proj2 (compute_face_areas_unsupported_order
                    Kernel.get_all_face_area_from_coords Samples.two_quads
                    "triangular" 99 Kernel.ConfigurationError eq_refl)
                 eq_refl).
Defined.

Lemma face_areas_first_then_cached_witness :
  value (face_areas Kernel.get_all_face_area_from_coords Samples.two_quads)
  = Ok (Some [4 # 4; 8 # 4]%Q) /\
  self_after (face_areas Kernel.get_all_face_area_from_coords Samples.two_quads)
  = Samples.two_quads_cached /\
  face_areas Kernel.get_all_face_area_from_coords Samples.two_quads_cached
  = mkOutcome (Ok (Some [4 # 4; 8 # 4]%Q)) Samples.two_quads_cached [].
Proof.
  exact (face_areas_first_then_cached
           Kernel.get_all_face_area_from_coords Samples.two_quads
           [4 # 4; 8 # 4]%Q eq_refl eq_refl).
Defined.

(** C3, as stated, fails.  [Samples.two_quads] has two faces.  A field of
    two time steps on five faces, of shape (2, 5), has a face dimension
    that is not 2: [integrate] raises nothing and returns five numbers,
    the two time steps of every column weighted by the two areas.  A field
    of rank 0 has no face dimension: [integrate] returns the areas times
    its value.  (The areas are 1 and 2 and the entries small integers, on
    which float64 does not round.) *)
Lemma integrate_accepts_another_face_dimension :
  nMesh2_face Samples.two_quads = 2%nat /\
  (exists r,
     value (integrate Kernel.get_all_face_area_from_coords Np.exact
              [("psi", Np.mkArray [2; 5]%nat [1; 2; 3; 4; 5; 6; 7; 8; 9; 10]%Q)]
              "triangular" 4 Samples.two_quads) = Ok r /\
     Np.shape r = [5%nat] /\
     Forall2 Qeq (Np.data r) [13; 16; 19; 22; 25]%Q) /\
  (exists r,
     value (integrate Kernel.get_all_face_area_from_coords Np.exact
              [("psi", Np.scalar 3%Q)] "triangular" 4 Samples.two_quads) = Ok r /\
     Np.shape r = [2%nat] /\
     Forall2 Qeq (Np.data r) [3; 6]%Q).
Proof.
  split; [reflexivity|]. split.
  - eexists. split; [vm_compute; reflexivity|]. split; [reflexivity|].
    repeat constructor.
  - eexists. split; [vm_compute; reflexivity|]. split; [reflexivity|].
    repeat constructor.
Qed.

Lemma integrate_shape_error_witness :
  value (integrate Kernel.get_all_face_area_from_coords Np.exact
           [("psi", Np.vector [1; 1; 1]%Q)] "triangular" 4 Samples.two_quads)
  = Raise ValueError /\
  value (integrate Kernel.get_all_face_area_from_coords Np.exact
           [("psi", Np.mkArray [2; 3; 1]%nat [1; 1; 1; 1; 1; 1]%Q)] "triangular" 4
           Samples.two_quads)
  = Raise ValueError /\
  value (integrate Kernel.get_all_face_area_from_coords Np.exact
           [("psi", Np.vector [3; 5]%Q)] "triangular" 4 Samples.two_quads)
  = Ok (Np.scalar (Np.inner Np.exact [4 # 4; 8 # 4]%Q [3; 5]%Q)).
Proof.
  split; [|split].
  - apply (proj1 (integrate_shape_error
                    Kernel.get_all_face_area_from_coords Np.exact Samples.two_quads
                    "psi" (Np.vector [1; 1; 1]%Q) [] "triangular" 4 [4 # 4; 8 # 4]%Q
                    eq_refl eq_refl) 3%nat eq_refl).
    cbn. lia.
  - apply (proj1 (proj2 (integrate_shape_error
                    Kernel.get_all_face_area_from_coords Np.exact Samples.two_quads
                    "psi" (Np.mkArray [2; 3; 1]%nat [1; 1; 1; 1; 1; 1]%Q) []
                    "triangular" 4 [4 # 4; 8 # 4]%Q eq_refl eq_refl))
                 [2%nat] 3%nat 1%nat eq_refl).
    cbn. lia.
  - exact (proj1 (proj2 (proj2 (integrate_shape_error
                    Kernel.get_all_face_area_from_coords Np.exact Samples.two_quads
                    "psi" (Np.vector [3; 5]%Q) [] "triangular" 4 [4 # 4; 8 # 4]%Q
                    eq_refl eq_refl))) eq_refl).
Defined.

Lemma integrate_several_fields_witness :
  stdout (integrate Kernel.get_all_face_area_from_coords Np.exact
            [("psi", Np.vector [3; 5]%Q); ("phi", Np.vector [7]%Q)]
            "triangular" 4 Samples.two_quads)
  = [WARNING] /\
  value (integrate Kernel.get_all_face_area_from_coords Np.exact
           [("psi", Np.vector [3; 5]%Q); ("phi", Np.vector [7]%Q)]
           "triangular" 4 Samples.two_quads)
  = Ok (Np.scalar (Np.inner Np.exact [4 # 4; 8 # 4]%Q [3; 5]%Q)).
Proof.
  pose proof (integrate_several_fields
                Kernel.get_all_face_area_from_coords Np.exact Samples.two_quads
                "psi" (Np.vector [3; 5]%Q) [("phi", Np.vector [7]%Q)]
                "triangular" 4) as H.
  assert (Hlen : (1 < length [("psi", Np.vector [3; 5]%Q);
                              ("phi", Np.vector [7]%Q)])%nat) by (cbn; lia).
  destruct (H Hlen) as [_ [_ Hw]].
  destruct (Hw [4 # 4; 8 # 4]%Q eq_refl) as [Hout [_ Hval]].
  split; [exact Hout | exact (Hval [3; 5]%Q eq_refl eq_refl)].
Defined.

End CacheWitnesses.

(** ** Indexing and comprehensions *)

Lemma position_lt (n : nat) (i : Z) (k : nat) :
  position n i = Some k -> (k < n)%nat.
Proof.
  unfold position.
  destruct ((0 <=? i) && (i <? Z.of_nat n)) eqn:E1.
  - intros [= <-]. apply andb_prop in E1 as [H1 H2].
    apply Z.leb_le in H1. apply Z.ltb_lt in H2. lia.
  - destruct ((- Z.of_nat n <=? i) && (i <? 0)) eqn:E2; [|discriminate].
    intros [= <-]. apply andb_prop in E2 as [H1 H2].
    apply Z.leb_le in H1. apply Z.ltb_lt in H2. lia.
Qed.

Lemma position_nonneg (n : nat) (k : nat) :
  (k < n)%nat -> position n (Z.of_nat k) = Some k.
Proof.
  intros H. unfold position.
  replace ((0 <=? Z.of_nat k) && (Z.of_nat k <? Z.of_nat n)) with true.
  - rewrite Nat2Z.id. reflexivity.
  - symmetry. apply andb_true_intro. split; [apply Z.leb_le | apply Z.ltb_lt]; lia.
Qed.

Lemma position_minus1 (n : nat) :
  (0 < n)%nat -> position n (-1) = Some (n - 1)%nat.
Proof.
  intros H. unfold position. cbn [Z.leb Z.compare andb].
  replace ((- Z.of_nat n <=? -1) && (-1 <? 0)) with true.
  - f_equal. lia.
  - symmetry. apply andb_true_intro. split; [apply Z.leb_le | apply Z.ltb_lt]; lia.
Qed.

Lemma index_ok_iff {A} (l : list A) (i : Z) (a : A) :
  Py.index l i = Ok a <->
  exists k, position (length l) i = Some k /\ nth_error l k = Some a.
Proof.
  unfold Py.index. split.
  - destruct (position (length l) i) as [k|] eqn:Hp; [|discriminate].
    destruct (nth_error l k) as [a'|] eqn:Hn; [|discriminate].
    intros [= <-]. exists k. split; [reflexivity | exact Hn].
  - intros [k [Hp Hn]]. rewrite Hp, Hn. reflexivity.
Qed.

Lemma index_defined {A} (l : list A) (i : Z) (k : nat) :
  position (length l) i = Some k -> exists a, Py.index l i = Ok a.
Proof.
  intros Hp. pose proof (position_lt _ _ _ Hp) as Hlt.
  destruct (nth_error l k) as [a|] eqn:Hn.
  - exists a. apply index_ok_iff. exists k. split; assumption.
  - apply nth_error_None in Hn. lia.
Qed.

(** Whether [seq[i]] raises depends on the length of [seq] alone. *)
Lemma index_same_length {A B} (l : list A) (l' : list B) (i : Z) (a : A) :
  length l' = length l -> Py.index l i = Ok a -> exists b, Py.index l' i = Ok b.
Proof.
  intros Hlen H. apply index_ok_iff in H as [k [Hp _]].
  apply (index_defined l' i k). rewrite Hlen. exact Hp.
Qed.

Lemma index_In {A} (l : list A) (i : Z) (a : A) :
  Py.index l i = Ok a -> In a l.
Proof.
  intros H. apply index_ok_iff in H as [k [_ Hn]].
  eapply nth_error_In, Hn.
Qed.

Lemma index_minus1 {A} (l : list A) (d : A) :
  l <> [] -> Py.index l (-1) = Ok (last l d).
Proof.
  intros Hne. apply index_ok_iff. exists (length l - 1)%nat. split.
  - apply position_minus1. destruct l; [contradiction | cbn; lia].
  - destruct (exists_last Hne) as [l' [a ->]].
    rewrite last_last, length_app. cbn [length].
    rewrite nth_error_app2 by lia.
    replace (length l' + 1 - 1 - length l')%nat with 0%nat by lia. reflexivity.
Qed.

Lemma Forall2_index {A B} (R : A -> B -> Prop) (l : list A) (l' : list B)
    (i : Z) (a : A) :
  Forall2 R l l' -> Py.index l i = Ok a ->
  exists b, Py.index l' i = Ok b /\ R a b.
Proof.
  intros HF H. apply index_ok_iff in H as [k [Hp Hn]].
  pose proof (Forall2_length HF) as Hlen.
  revert k Hn Hp. rewrite Hlen. intros k Hn Hp.
  assert (Hb : exists b, nth_error l' k = Some b /\ R a b).
  { clear Hp Hlen. revert k Hn. induction HF as [|x y l l' Hxy HF IH]; intros k Hn.
    - destruct k; discriminate.
    - destruct k as [|k]; cbn in *.
      + injection Hn as <-. exists y. split; [reflexivity | exact Hxy].
      + apply IH, Hn. }
  destruct Hb as [b [Hb HR]]. exists b. split; [|exact HR].
  apply index_ok_iff. exists k. split; assumption.
Qed.

Lemma mapM_Forall2 {A B} (f : A -> result B) (l : list A) (bs : list B) :
  mapM f l = Ok bs <-> Forall2 (fun a b => f a = Ok b) l bs.
Proof.
  revert bs. induction l as [|a l IH]; intros bs; cbn [mapM].
  - split.
    + intros [= <-]. constructor.
    + intros H. inversion H. reflexivity.
  - split.
    + destruct (f a) as [b|e] eqn:Hf; cbn [Py.bind]; [|discriminate].
      destruct (mapM f l) as [bs'|e] eqn:Hm; cbn [Py.bind]; [|discriminate].
      intros [= <-]. constructor; [exact Hf | apply IH; reflexivity].
    + intros H. inversion H as [|a' b l' bs' Hf HF]; subst.
      rewrite Hf. cbn [Py.bind].
      apply IH in HF. rewrite HF. reflexivity.
Qed.

Lemma mapM_map {A B C} (g : A -> B) (f : B -> result C) (l : list A) :
  mapM f (map g l) = mapM (fun a => f (g a)) l.
Proof.
  induction l as [|a l IH]; cbn [map mapM]; [reflexivity|].
  rewrite IH. reflexivity.
Qed.

Lemma mapM_ext_in {A B} (f g : A -> result B) (l : list A) :
  (forall a, In a l -> f a = g a) -> mapM f l = mapM g l.
Proof.
  induction l as [|a l IH]; intros H; cbn [mapM]; [reflexivity|].
  rewrite (H a (or_introl eq_refl)), IH; [reflexivity|].
  intros a' Ha'. apply H. right. exact Ha'.
Qed.

Lemma mapM_pure {A B} (f : A -> B) (l : list A) :
  mapM (fun a => Ok (f a)) l = Ok (map f l).
Proof.
  induction l as [|a l IH]; cbn [map mapM Py.bind]; [reflexivity|].
  rewrite IH. reflexivity.
Qed.

(** ** The sides of a face *)

Local Open Scope list_scope.

Lemma diff1_length (l : list Q) : length (Np.diff1 l) = (length l - 1)%nat.
Proof.
  induction l as [|a [|b l] IH]; cbn [Np.diff1 length] in *; try reflexivity.
  rewrite IH. lia.
Qed.

Lemma diff1_nth (l : list Q) (j : nat) :
  (S j < length l)%nat ->
  nth j (Np.diff1 l) 0%Q = (nth (S j) l 0 - nth j l 0)%Q.
Proof.
  revert j. induction l as [|a [|b l] IH]; intros j Hj; cbn [length] in Hj; try lia.
  destruct j as [|j].
  - reflexivity.
  - change (Np.diff1 (a :: b :: l)) with ((b - a)%Q :: Np.diff1 (b :: l)).
    cbn [nth]. rewrite IH by (cbn [length]; lia). reflexivity.
Qed.

Lemma nth_wrap (row : list Q) (j : nat) :
  (j < length row)%nat ->
  nth (S j) (row ++ [hd 0%Q row]) 0%Q = nth (S j mod length row) row 0%Q.
Proof.
  intros Hj. destruct (Nat.eq_dec (S j) (length row)) as [E|E].
  - rewrite E, Nat.Div0.mod_same.
    rewrite app_nth2 by lia. rewrite Nat.sub_diag.
    destruct row; reflexivity.
  - rewrite Nat.mod_small by lia. apply app_nth1. lia.
Qed.

Lemma row_sides_length (threshold : Q) (row : list Q) :
  length (row_sides threshold row) = length row.
Proof.
  unfold row_sides. rewrite !length_map, diff1_length, length_app.
  cbn [length]. lia.
Qed.

(** Side [j] of a row is flagged exactly when the longitudes of slot [j]
    and of the cyclically next slot differ by more than the threshold. *)
Lemma row_sides_nth (threshold : Q) (row : list Q) (j : nat) :
  (j < length row)%nat ->
  nth j (row_sides threshold row) false = true <-> Spec.side_crosses row threshold j.
Proof.
  intros Hj. unfold row_sides, Spec.side_crosses.
  rewrite (nth_indep _ false (Qgtb (Qabs 0) threshold))
    by (rewrite !length_map, diff1_length, length_app; cbn [length]; lia).
  rewrite (map_nth (fun v => Qgtb v threshold)).
  rewrite (map_nth Qabs).
  rewrite diff1_nth by (rewrite length_app; cbn [length]; lia).
  rewrite nth_wrap by exact Hj.
  rewrite app_nth1 by exact Hj.
  apply Qgtb_gt.
Qed.

Lemma row_sides_any (threshold : Q) (row : list Q) :
  existsb id (row_sides threshold row) = true <->
  exists j, (j < length row)%nat /\ Spec.side_crosses row threshold j.
Proof.
  rewrite existsb_exists. split.
  - intros [b [Hin Hb]]. unfold id in Hb. subst b.
    apply (In_nth _ _ false) in Hin as [j [Hj Hn]].
    rewrite row_sides_length in Hj. exists j. split; [exact Hj|].
    apply row_sides_nth; assumption.
  - intros [j [Hj Hc]]. exists true. split; [|reflexivity].
    apply row_sides_nth in Hc; [|exact Hj]. rewrite <- Hc.
    apply nth_In. rewrite row_sides_length. exact Hj.
Qed.

Lemma pad_wrap_drop_ok (a p : list (list Q)) :
  Np.pad_wrap_drop a = Ok p ->
  a <> [] /\ Forall (fun row => row <> []) a /\
  p = map (fun row => row ++ [hd 0%Q row]) a.
Proof.
  unfold Np.pad_wrap_drop. intros H.
  assert (Hm : mapM (fun row : list Q =>
                       match row with [] => Raise ValueError | x :: _ => Ok (row ++ [x]) end)
                    a = Ok p).
  { destruct a; [discriminate | exact H]. }
  split; [destruct a; [discriminate | discriminate]|].
  clear H. apply mapM_Forall2 in Hm.
  induction Hm as [|row prow a p Hrow Hm [IH1 IH2]].
  - split; [constructor | reflexivity].
  - destruct row as [|x row]; [discriminate|]. injection Hrow as <-.
    split; [constructor; [discriminate | exact IH1]|].
    cbn [map hd]. f_equal. exact IH2.
Qed.

(** [crossed_mask_2d] row by row. *)
Lemma crossed_mask_2d_ok (self : Grid) (threshold : Q) (mask : list (list bool)) :
  crossed_mask_2d self threshold = Ok mask ->
  exists lon, face_lon self = Ok lon /\ lon <> [] /\
              Forall (fun row => row <> []) lon /\
              mask = map (row_sides threshold) lon.
Proof.
  unfold crossed_mask_2d. destruct (face_lon self) as [lon|e]; cbn [Py.bind]; [|discriminate].
  destruct (Np.pad_wrap_drop lon) as [p|e] eqn:Hp; cbn [Py.bind]; [|discriminate].
  intros [= <-]. apply pad_wrap_drop_ok in Hp as [Hne [Hrows ->]].
  exists lon. repeat split; try assumption.
  unfold Np.gt, Np.abs, Np.diff, row_sides. rewrite !map_map. reflexivity.
Qed.

Lemma crossed_mask_2d_intro (self : Grid) (threshold : Q) (lon : list (list Q)) :
  face_lon self = Ok lon -> lon <> [] -> Forall (fun row => row <> []) lon ->
  crossed_mask_2d self threshold = Ok (map (row_sides threshold) lon).
Proof.
  intros Hl Hne Hrows. unfold crossed_mask_2d. rewrite Hl. cbn [Py.bind].
  assert (Hp : Np.pad_wrap_drop lon = Ok (map (fun row => row ++ [hd 0%Q row]) lon)).
  { unfold Np.pad_wrap_drop. destruct lon as [|r lon]; [contradiction|].
    apply mapM_Forall2. clear Hl Hne.
    induction Hrows as [|row rows Hrow Hrows IH]; cbn [map]; constructor.
    - destruct row; [contradiction | reflexivity].
    - exact IH. }
  rewrite Hp. cbn [Py.bind].
  unfold Np.gt, Np.abs, Np.diff, row_sides. rewrite !map_map. reflexivity.
Qed.

(** ** The flagged faces *)

Lemma argwhere_from_spec (m : list bool) (i k : Z) :
  In k (Np.argwhere_from i m) <->
  exists n, k = i + Z.of_nat n /\ nth_error m n = Some true.
Proof.
  revert i. induction m as [|b m IH]; intros i; cbn [Np.argwhere_from].
  - split; [intros [] | intros [n [_ H]]; destruct n; discriminate].
  - assert (Htail : In k (Np.argwhere_from (i + 1) m) <->
                    exists n, k = i + Z.of_nat (S n) /\ nth_error m n = Some true).
    { rewrite IH. split; intros [n [-> H]]; exists n; split; try exact H; lia. }
    destruct b.
    + cbn [In]. rewrite Htail. split.
      * intros [<- | [n [-> H]]].
        -- exists 0%nat. split; [cbn; lia | reflexivity].
        -- exists (S n). split; [reflexivity | exact H].
      * intros [[|n] [-> H]].
        -- left. cbn. lia.
        -- right. exists n. split; [reflexivity | exact H].
    + rewrite Htail. split.
      * intros [n [-> H]]. exists (S n). split; [reflexivity | exact H].
      * intros [[|n] [-> H]]; [discriminate|].
        exists n. split; [reflexivity | exact H].
Qed.

(** A face is listed by [np.argwhere] exactly when its flag is set. *)
Lemma argwhere_spec (m : list bool) (k : Z) :
  In k (Np.argwhere m) <-> exists n, k = Z.of_nat n /\ nth_error m n = Some true.
Proof. unfold Np.argwhere. rewrite argwhere_from_spec. reflexivity. Qed.

Lemma argwhere_nil (m : list bool) :
  Np.argwhere m = [] <-> Forall (fun flag => flag = false) m.
Proof.
  split.
  - intros H. apply Forall_forall. intros b Hb.
    destruct b; [|reflexivity].
    apply In_nth_error in Hb as [n Hn].
    assert (Hin : In (Z.of_nat n) (Np.argwhere m)).
    { apply argwhere_spec. exists n. split; [reflexivity | exact Hn]. }
    rewrite H in Hin. destruct Hin.
  - intros H. destruct (Np.argwhere m) as [|k ks] eqn:E; [reflexivity|].
    assert (Hin : In k (Np.argwhere m)) by (rewrite E; left; reflexivity).
    apply argwhere_spec in Hin as [n [_ Hn]].
    apply nth_error_In in Hn. rewrite Forall_forall in H.
    apply H in Hn. discriminate.
Qed.

(** Every row number listed by [np.argwhere] selects a row. *)
Lemma take_rows_argwhere {A} (a : list (list A)) (m : list bool) (rows : list Z) :
  length m = length a ->
  (forall k, In k rows -> In k (Np.argwhere m)) ->
  exists picked, Np.take_rows a rows = Ok picked.
Proof.
  intros Hlen Hsub. unfold Np.take_rows.
  induction rows as [|k rows IH]; cbn [mapM].
  - exists []. reflexivity.
  - assert (Hk : In k (Np.argwhere m)) by (apply Hsub; left; reflexivity).
    apply argwhere_spec in Hk as [n [-> Hn]].
    assert (Hlt : (n < length a)%nat).
    { rewrite <- Hlen. apply nth_error_Some. rewrite Hn. discriminate. }
    destruct (index_defined a (Z.of_nat n) n (position_nonneg _ _ Hlt)) as [row Hrow].
    rewrite Hrow. cbn [Py.bind].
    destruct IH as [picked Hp]; [intros k' Hk'; apply Hsub; right; exact Hk'|].
    rewrite Hp. cbn [Py.bind]. eexists. reflexivity.
Qed.

(** What [compute_antimeridian_faces] returns, in terms of the flags. *)
Lemma compute_antimeridian_faces_ok (self : Grid) (threshold : Q)
    (idx : list Z) (m : Np.bool_array) :
  compute_antimeridian_faces self threshold = Ok (idx, m) ->
  exists mask, crossed_mask_2d self threshold = Ok mask /\
               idx = Np.argwhere (Np.any_axis1 mask) /\
               length idx <> 1%nat.
Proof.
  unfold compute_antimeridian_faces.
  destruct (crossed_mask_2d self threshold) as [mask|e]; cbn [Py.bind]; [|discriminate].
  destruct (Np.tuple_squeeze (Np.argwhere (Np.any_axis1 mask))) as [ci|e] eqn:Hts;
    cbn [Py.bind]; [|discriminate].
  destruct (Np.take_rows mask ci) as [rows|e]; cbn [Py.bind]; [|discriminate].
  intros [= <- _]. exists mask. split; [reflexivity|].
  unfold Np.tuple_squeeze in Hts.
  destruct (Np.argwhere (Np.any_axis1 mask)) as [|k [|k' ks]]; try discriminate;
    injection Hts as <-; split; try reflexivity; cbn; lia.
Qed.

(** With exactly one flagged face the method raises [TypeError]. *)
Lemma compute_antimeridian_faces_one_flag (self : Grid) (threshold : Q)
    (mask : list (list bool)) (k : Z) :
  crossed_mask_2d self threshold = Ok mask ->
  Np.argwhere (Np.any_axis1 mask) = [k] ->
  compute_antimeridian_faces self threshold = Raise TypeError.
Proof.
  intros Hm Hk. unfold compute_antimeridian_faces.
  rewrite Hm. cbn [Py.bind]. rewrite Hk. reflexivity.
Qed.

(** With no flagged face it returns the empty tuple. *)
Lemma compute_antimeridian_faces_no_flag (self : Grid) (threshold : Q)
    (mask : list (list bool)) :
  crossed_mask_2d self threshold = Ok mask ->
  Forall (fun flag => flag = false) (Np.any_axis1 mask) ->
  compute_antimeridian_faces self threshold = Ok ([], Np.squeeze [] (ncols mask)).
Proof.
  intros Hm Hf. unfold compute_antimeridian_faces.
  rewrite Hm. cbn [Py.bind]. apply argwhere_nil in Hf. rewrite Hf. reflexivity.
Qed.

(** With two or more flagged faces it returns them all. *)
Lemma compute_antimeridian_faces_many (self : Grid) (threshold : Q)
    (mask : list (list bool)) :
  crossed_mask_2d self threshold = Ok mask ->
  (2 <= length (Np.argwhere (Np.any_axis1 mask)))%nat ->
  exists m, compute_antimeridian_faces self threshold
            = Ok (Np.argwhere (Np.any_axis1 mask), m).
Proof.
  intros Hm Hk. unfold compute_antimeridian_faces.
  rewrite Hm. cbn [Py.bind].
  destruct (take_rows_argwhere mask (Np.any_axis1 mask)
              (Np.argwhere (Np.any_axis1 mask))) as [rows Hr].
  { unfold Np.any_axis1. apply length_map. }
  { intros k Hk'. exact Hk'. }
  destruct (Np.argwhere (Np.any_axis1 mask)) as [|k [|k' ks]] eqn:E;
    cbn [length] in Hk; try lia.
  cbn [Np.tuple_squeeze Py.bind]. rewrite Hr. cbn [Py.bind].
  eexists. reflexivity.
Qed.

(** Whenever the method returns, it reports exactly the faces with a side
    longer than the threshold. *)
Lemma compute_antimeridian_faces_reports (self : Grid) (threshold : Q)
    (idx : list Z) (m : Np.bool_array) :
  compute_antimeridian_faces self threshold = Ok (idx, m) ->
  exists lon,
    face_lon self = Ok lon /\
    forall n row, nth_error lon n = Some row ->
      (In (Z.of_nat n) idx <->
       exists j, (j < length row)%nat /\ Spec.side_crosses row threshold j).
Proof.
  intros Hc.
  destruct (compute_antimeridian_faces_ok _ _ _ _ Hc) as [mask [Hm [-> _]]].
  destruct (crossed_mask_2d_ok _ _ _ Hm) as [lon [Hl [_ [_ ->]]]].
  exists lon. split; [exact Hl|].
  intros n row Hrow. rewrite argwhere_spec, <- row_sides_any.
  unfold Np.any_axis1. split.
  - intros [n' [Hn' Hflag]]. apply Nat2Z.inj in Hn'. subst n'.
    rewrite !nth_error_map, Hrow in Hflag. cbn in Hflag.
    injection Hflag as Hflag. exact Hflag.
  - intros Hflag. exists n. split; [reflexivity|].
    rewrite !nth_error_map, Hrow. cbn. rewrite Hflag. reflexivity.
Qed.

(** [face_lon] slot by slot. *)
Lemma face_lon_gathers (self : Grid) (lon : list (list Q)) :
  face_lon self = Ok lon ->
  Forall2 (Forall2 (fun e v =>
                      Py.index (Mesh2_node_x self) (Np.astype_int32 e) = Ok v))
          (Mesh2_face_nodes self) lon.
Proof.
  intros Hl. unfold face_lon, Np.take in Hl. rewrite mapM_map in Hl.
  apply mapM_Forall2 in Hl.
  eapply Forall2_impl; [|exact Hl].
  intros row lrow Hrow. cbn beta in Hrow.
  rewrite mapM_map in Hrow. apply mapM_Forall2 in Hrow. exact Hrow.
Qed.

(** ** Claims on the detection of antimeridian faces *)

(** C5.  On the grid made of the single face with longitudes
    170, -170, -175, 175 two sides exceed the threshold of 180, yet
    [compute_antimeridian_faces] raises [TypeError] instead of reporting the
    face; the face with longitudes 10, 20, 30, 40 is not reported. *)
Theorem single_crossing_face_raises :
  crossed_mask_2d (Samples.one_face [170; -170; -175; 175]%Q) default_threshold
  = Ok [[true; false; true; false]] /\
  compute_antimeridian_faces (Samples.one_face [170; -170; -175; 175]%Q) default_threshold
  = Raise TypeError /\
  compute_antimeridian_faces (Samples.one_face [10; 20; 30; 40]%Q) default_threshold
  = Ok ([], Np.Arr2 []).
Proof. repeat split; vm_compute; reflexivity. Qed.

(** C9.  When no face of the grid is flagged, [split_antimeridian_faces]
    returns the tuple [(None, None, None)]. *)
Theorem split_without_crossing_faces (self : Grid) (mask : list (list bool)) :
  crossed_mask_2d self default_threshold = Ok mask ->
  Forall (fun flag => flag = false) (Np.any_axis1 mask) ->
  split_antimeridian_faces self = Ok NoneTriple.
Proof.
  intros Hm Hf.
  unfold split_antimeridian_faces, split_antimeridian_body.
  rewrite (compute_antimeridian_faces_no_flag _ _ _ Hm Hf).
  reflexivity.
Qed.

Lemma split_without_crossing_faces_witness :
  split_antimeridian_faces (Samples.one_face [10; 20; 30; 40]%Q) = Ok NoneTriple.
Proof.
  apply (split_without_crossing_faces
           (Samples.one_face [10; 20; 30; 40]%Q) [[false; false; false; false]]).
  - vm_compute. reflexivity.
  - repeat constructor.
Defined.

(** C10.  Every slot of the face-node table, fill slots included, is cast
    to [int32] and gathers a longitude; the fill value -1 gathers the
    longitude of the last node; and every slot, fill slots included, is the
    start of a side that is compared with the threshold. *)
Theorem fill_slots_take_part
    (self : Grid) (threshold : Q) (lon : list (list Q)) (mask : list (list bool)) :
  face_lon self = Ok lon ->
  crossed_mask_2d self threshold = Ok mask ->
  Forall2 (Forall2 (fun e v =>
                      Py.index (Mesh2_node_x self) (Np.astype_int32 e) = Ok v))
          (Mesh2_face_nodes self) lon /\
  Py.index (Mesh2_node_x self) (Np.astype_int32 (-1))
  = Ok (last (Mesh2_node_x self) 0%Q) /\
  Forall2 (fun row flags =>
             length flags = length row /\
             forall j, (j < length row)%nat ->
                       (nth j flags false = true <-> Spec.side_crosses row threshold j))
          lon mask.
Proof.
  intros Hl Hm.
  pose proof (face_lon_gathers _ _ Hl) as Hgather.
  apply crossed_mask_2d_ok in Hm as [lon' [Hl' [Hne [Hrows ->]]]].
  rewrite Hl in Hl'. injection Hl' as <-.
  split; [exact Hgather|]. split.
  - change (Np.astype_int32 (-1)) with (-1). apply index_minus1.
    destruct lon as [|lrow lon]; [contradiction|].
    inversion Hrows as [|? ? Hlrow _]; subst.
    inversion Hgather as [|row ? ? ? Hrow _]; subst.
    destruct Hrow as [|e v ? ? Hev _]; [contradiction|].
    apply index_In in Hev. intros Hx. rewrite Hx in Hev. destruct Hev.
  - clear. induction lon as [|row lon IH]; cbn [map]; constructor; [|exact IH].
    split; [apply row_sides_length|].
    intros j Hj. apply row_sides_nth, Hj.
Qed.

Lemma fill_slots_take_part_witness :
  Forall2 (Forall2 (fun e v =>
                      Py.index (Mesh2_node_x Samples.padded_triangles)
                               (Np.astype_int32 e) = Ok v))
          [[0; 1; 2; -1]; [1; 3; 2; -1]]
          [[170; 175; 172; -175]; [175; 178; 172; -175]]%Q /\
  Py.index (Mesh2_node_x Samples.padded_triangles) (Np.astype_int32 (-1))
  = Ok (-175)%Q /\
  Forall2 (fun row flags =>
             length flags = length row /\
             forall j, (j < length row)%nat ->
                       (nth j flags false = true
                        <-> Spec.side_crosses row default_threshold j))
          [[170; 175; 172; -175]; [175; 178; 172; -175]]%Q
          [[false; false; true; true]; [false; false; true; true]].
Proof.
  exact (fill_slots_take_part Samples.padded_triangles default_threshold
           [[170; 175; 172; -175]; [175; 178; 172; -175]]%Q
           [[false; false; true; true]; [false; false; true; true]]
           eq_refl eq_refl).
Defined.

(** ** The split of the flagged faces *)

Lemma astype_int32_small (e : Z) : int32_range e -> Np.astype_int32 e = e.
Proof.
  unfold int32_range, Np.astype_int32. intros H.
  rewrite Z.mod_small by lia. lia.
Qed.

Lemma astype_int64_small (e : Z) : int32_range e -> Np.astype_int64 e = e.
Proof.
  unfold int32_range, Np.astype_int64. intros H.
  rewrite Z.mod_small by lia. lia.
Qed.

(** Rows picked with the same row numbers from two related tables are
    related. *)
Lemma take_rows_Forall2 {A B} (R : list A -> list B -> Prop)
    (a : list (list A)) (b : list (list B)) (rows : list Z)
    (pa : list (list A)) (pb : list (list B)) :
  Forall2 R a b ->
  Np.take_rows a rows = Ok pa -> Np.take_rows b rows = Ok pb ->
  Forall2 R pa pb.
Proof.
  intros HR Ha Hb. unfold Np.take_rows in *.
  apply mapM_Forall2 in Ha. apply mapM_Forall2 in Hb.
  revert pb Hb. induction Ha as [|i ra rows pa Hi Ha IH]; intros pb Hb.
  - inversion Hb. constructor.
  - inversion Hb as [|i' rb rows' pb' Hi' Hb']; subst.
    constructor; [|apply IH; exact Hb'].
    destruct (Forall2_index R a b i ra HR Hi) as [rb' [Hrb' Hrel]].
    rewrite Hi' in Hrb'. injection Hrb' as <-. exact Hrel.
Qed.

Lemma take_rows_In {A} (a : list (list A)) (rows : list Z) (pa : list (list A)) :
  Np.take_rows a rows = Ok pa -> Forall (fun r => In r a) pa.
Proof.
  unfold Np.take_rows. intros H. apply mapM_Forall2 in H.
  induction H as [|i r rows pa Hi H IH]; constructor; [|exact IH].
  eapply index_In, Hi.
Qed.

(** Gathering through [astype(int)] finds what the [int32] gather found
    when the entries fit [int32]. *)
Lemma take_int64_of_int32 (x : list Q) (rows : list (list Z)) (picked : list (list Q)) :
  Forall (Forall int32_range) rows ->
  Forall2 (Forall2 (fun e v => Py.index x (Np.astype_int32 e) = Ok v)) rows picked ->
  Np.take x (map (map Np.astype_int64) rows) = Ok picked.
Proof.
  intros Hrange HF. unfold Np.take. rewrite mapM_map. apply mapM_Forall2.
  induction HF as [|row prow rows picked Hrow HF IH]; constructor.
  - rewrite mapM_map. apply mapM_Forall2.
    inversion Hrange as [|? ? Hr _]; subst. clear - Hrow Hr.
    induction Hrow as [|e v row prow Hev Hrow IH]; constructor.
    + inversion Hr as [|? ? He _]; subst.
      rewrite astype_int64_small by exact He.
      rewrite astype_int32_small in Hev by exact He. exact Hev.
    + apply IH. inversion Hr; assumption.
  - apply IH. inversion Hrange; assumption.
Qed.

(** A gather that succeeds on [x] succeeds on any [y] of the same length. *)
Lemma take_same_length (x y : list Q) (idx : list (list Z)) (px : list (list Q)) :
  length y = length x ->
  Np.take x idx = Ok px -> exists py, Np.take y idx = Ok py.
Proof.
  intros Hlen. unfold Np.take. revert px.
  induction idx as [|row idx IH]; intros px; cbn [mapM].
  - exists []. reflexivity.
  - destruct (mapM (Py.index x) row) as [prow|e] eqn:Hrow; cbn [Py.bind]; [|discriminate].
    destruct (mapM (mapM (Py.index x)) idx) as [prest|e] eqn:Hrest;
      cbn [Py.bind]; [|discriminate].
    intros _.
    assert (Hy : exists qrow, mapM (Py.index y) row = Ok qrow).
    { clear - Hlen Hrow. revert prow Hrow.
      induction row as [|e row IHr]; intros prow; cbn [mapM].
      - exists []. reflexivity.
      - destruct (Py.index x e) as [v|err] eqn:Hv; cbn [Py.bind]; [|discriminate].
        destruct (mapM (Py.index x) row) as [pr|err] eqn:Hr; cbn [Py.bind]; [|discriminate].
        intros _.
        destruct (index_same_length x y e v Hlen Hv) as [w Hw].
        destruct (IHr pr eq_refl) as [qr Hqr].
        rewrite Hw, Hqr. cbn [Py.bind]. eexists. reflexivity. }
    destruct Hy as [qrow Hq]. destruct (IH prest eq_refl) as [qrest Hqr].
    rewrite Hq, Hqr. cbn [Py.bind]. eexists. reflexivity.
Qed.

(** The candidates in the words of the specification. *)
Lemma split_candidates_spec (fx fy : list (list Q)) :
  left_x (split_candidates fx fy) = map Spec.left_candidate fx /\
  right_x (split_candidates fx fy) = map Spec.right_candidate fx /\
  left_exclude (split_candidates fx fy)
  = map (forallb (fun v => Qeq_bool v (-180)%Q)) (left_x (split_candidates fx fy)) /\
  right_exclude (split_candidates fx fy)
  = map (forallb (fun v => Qeq_bool v 180%Q)) (right_x (split_candidates fx fy)).
Proof.
  unfold split_candidates. cbn [left_x right_x left_exclude right_exclude].
  unfold Np.clip, Np.where_, Np.all_axis1, Np.eq_scalar,
    Spec.left_candidate, Spec.right_candidate, Spec.clip1.
  rewrite !map_map.
  repeat split.
  - apply map_ext. intros row. rewrite map_map. reflexivity.
  - apply map_ext. intros row. rewrite map_map. reflexivity.
  - apply map_ext. intros row. rewrite !map_map.
    induction row as [|v row IH]; cbn [map forallb]; [reflexivity|].
    unfold id at 1. rewrite IH. reflexivity.
  - apply map_ext. intros row. rewrite !map_map.
    induction row as [|v row IH]; cbn [map forallb]; [reflexivity|].
    unfold id at 1. rewrite IH. reflexivity.
Qed.

Lemma clip1_bounds (v : Q) : (-180 <= Spec.clip1 v <= 180)%Q.
Proof.
  unfold Spec.clip1. split.
  - apply Q.min_glb.
    + apply Q.le_max_r.
    + discriminate.
  - apply Q.le_min_r.
Qed.

Lemma candidates_in_range (fx : list (list Q)) :
  Forall (Forall (fun v => (-180 <= v <= 180)%Q)) (map Spec.left_candidate fx) /\
  Forall (Forall (fun v => (-180 <= v <= 180)%Q)) (map Spec.right_candidate fx).
Proof.
  split; apply Forall_forall; intros cand Hc;
    apply in_map_iff in Hc as [row [<- _]];
    apply Forall_forall; intros v Hv;
    apply in_map_iff in Hv as [w [<- _]]; apply clip1_bounds.
Qed.

(** The body of [split_antimeridian_faces] on a grid with flagged faces. *)
Lemma split_antimeridian_body_crossing
    (self : Grid) (idx : list Z) (m : Np.bool_array) :
  compute_antimeridian_faces self default_threshold = Ok (idx, m) ->
  idx <> [] ->
  length (Mesh2_node_y self) = length (Mesh2_node_x self) ->
  Forall (Forall int32_range) (Mesh2_face_nodes self) ->
  exists lon picked fy,
    face_lon self = Ok lon /\
    idx = Np.argwhere (Np.any_axis1 (map (row_sides default_threshold) lon)) /\
    Np.take_rows lon idx = Ok picked /\
    split_antimeridian_body self = Ok (Some (split_candidates picked fy)).
Proof.
  intros Hc Hne Hy Hrange.
  destruct (compute_antimeridian_faces_ok _ _ _ _ Hc) as [mask [Hm [Hidx _]]].
  destruct (crossed_mask_2d_ok _ _ _ Hm) as [lon [Hl [_ [_ Hmask]]]].
  pose proof (face_lon_gathers _ _ Hl) as Hgather.
  pose proof (Forall2_length Hgather) as Hlen.
  assert (Hflags : length (Np.any_axis1 mask) = length lon).
  { unfold Np.any_axis1. rewrite length_map, Hmask, length_map. reflexivity. }
  destruct (take_rows_argwhere lon (Np.any_axis1 mask) idx) as [picked Hp].
  { exact Hflags. }
  { intros k Hk. rewrite <- Hidx. exact Hk. }
  destruct (take_rows_argwhere (Mesh2_face_nodes self) (Np.any_axis1 mask) idx)
    as [trows Ht].
  { rewrite Hflags. symmetry. exact Hlen. }
  { intros k Hk. rewrite <- Hidx. exact Hk. }
  pose proof (take_rows_Forall2 _ _ _ _ _ _ Hgather Ht Hp) as Hrel.
  assert (Htr : Forall (Forall int32_range) trows).
  { pose proof (take_rows_In _ _ _ Ht) as Hin.
    rewrite Forall_forall in Hrange.
    eapply Forall_impl; [|exact Hin].
    intros r Hr. apply Hrange, Hr. }
  pose proof (take_int64_of_int32 _ _ _ Htr Hrel) as Hx.
  destruct (take_same_length _ (Mesh2_node_y self) _ _ Hy Hx) as [fy Hfy].
  exists lon, picked, fy.
  split; [exact Hl|]. split; [rewrite Hidx, Hmask; reflexivity|].
  split; [exact Hp|].
  unfold split_antimeridian_body. rewrite Hc. cbn [Py.bind fst].
  destruct idx as [|k idx]; [contradiction|]. cbn [length Nat.eqb].
  rewrite Ht. cbn [Py.bind]. rewrite Hx. cbn [Py.bind].
  rewrite Hfy. reflexivity.
Qed.

(** ** Claim on the split of antimeridian faces *)

(** C2.  On a grid whose latitudes are as many as its longitudes and whose
    table entries fit [int32], once the detection has returned a non-empty
    tuple of crossing faces, the split computes for every crossing face
    the left candidate [where(lon > 0, lon - 360, lon)] and the right
    candidate [where(lon < 0, lon + 360, lon)], both clipped to
    [-180, 180], and marks a candidate as excluded exactly when each of
    its longitudes is -180 (left) or 180 (right).  Then it hands back none
    of it: the method runs into its final [pass] and returns [None],
    neither the replacement polygons nor an error for a face that keeps no
    candidate. *)
Theorem split_discards_the_candidates
    (self : Grid) (idx : list Z) (m : Np.bool_array) :
  compute_antimeridian_faces self default_threshold = Ok (idx, m) ->
  idx <> [] ->
  length (Mesh2_node_y self) = length (Mesh2_node_x self) ->
  Forall (Forall int32_range) (Mesh2_face_nodes self) ->
  split_antimeridian_faces self = Ok PyNone /\
  exists lon locals,
    face_lon self = Ok lon /\
    Np.take_rows lon idx = Ok (face_x locals) /\
    split_antimeridian_body self = Ok (Some locals) /\
    left_x locals = map Spec.left_candidate (face_x locals) /\
    right_x locals = map Spec.right_candidate (face_x locals) /\
    left_exclude locals
    = map (forallb (fun v => Qeq_bool v (-180)%Q)) (left_x locals) /\
    right_exclude locals
    = map (forallb (fun v => Qeq_bool v 180%Q)) (right_x locals) /\
    Forall (Forall (fun v => (-180 <= v <= 180)%Q)) (left_x locals) /\
    Forall (Forall (fun v => (-180 <= v <= 180)%Q)) (right_x locals).
Proof.
  intros Hc Hne Hy Hrange.
  destruct (split_antimeridian_body_crossing _ _ _ Hc Hne Hy Hrange)
    as [lon [picked [fy [Hl [_ [Hp Hb]]]]]].
  split; [unfold split_antimeridian_faces; rewrite Hb; reflexivity|].
  exists lon, (split_candidates picked fy).
  destruct (split_candidates_spec picked fy) as [Hlx [Hrx [Hle Hre]]].
  destruct (candidates_in_range picked) as [Hlr Hrr].
  split; [exact Hl|]. split; [exact Hp|]. split; [exact Hb|].
  split; [exact Hlx|]. split; [exact Hrx|].
  split; [exact Hle|]. split; [exact Hre|].
  split; [rewrite Hlx; exact Hlr | rewrite Hrx; exact Hrr].
Qed.

(** The split as the specification words it against the method, on two
    grids.  The two faces of [Samples.two_crossing] cross and keep both
    candidates: the specification gives their four polygons, the method
    [None].  The two faces of [Samples.on_seam] cross and keep no
    candidate: the specification asks for a [TopologyError], the method
    returns [None] again. *)
Lemma split_against_the_specification :
  Spec.split_antimeridian_faces Samples.two_crossing
  = Ok [(0, [[-180; -170; -170; -180]; [170; 180; 180; 170]]%Q);
        (1, [[-180; -170; -175; -180]; [170; 180; 180; 175]]%Q)] /\
  split_antimeridian_faces Samples.two_crossing = Ok PyNone /\
  Spec.split_antimeridian_faces Samples.on_seam = Raise Spec.TopologyError /\
  split_antimeridian_faces Samples.on_seam = Ok PyNone.
Proof. repeat split; vm_compute; reflexivity. Qed.

Lemma split_discards_the_candidates_witness :
  split_antimeridian_faces Samples.two_crossing = Ok PyNone /\
  exists lon locals,
    face_lon Samples.two_crossing = Ok lon /\
    Np.take_rows lon [0; 1] = Ok (face_x locals) /\
    split_antimeridian_body Samples.two_crossing = Ok (Some locals) /\
    left_x locals = map Spec.left_candidate (face_x locals) /\
    right_x locals = map Spec.right_candidate (face_x locals) /\
    left_exclude locals
    = map (forallb (fun v => Qeq_bool v (-180)%Q)) (left_x locals) /\
    right_exclude locals
    = map (forallb (fun v => Qeq_bool v 180%Q)) (right_x locals) /\
    Forall (Forall (fun v => (-180 <= v <= 180)%Q)) (left_x locals) /\
    Forall (Forall (fun v => (-180 <= v <= 180)%Q)) (right_x locals).
Proof.
  apply (split_discards_the_candidates Samples.two_crossing [0; 1]
           (Np.Arr2 [[true; false; true; false]; [true; false; true; false]])).
  - vm_compute. reflexivity.
  - discriminate.
  - reflexivity.
  - unfold int32_range. cbn. repeat constructor; lia.
Defined.

(** * Further properties *)

(** ** Every path through the area methods *)

Section MethodFacts.

Variable kernel :
  list Q -> list Q -> list Q -> list (list Z) -> Z -> string -> Z -> string ->
  result (list Q).

Variable fl : Np.arith.

(** The three ways [compute_face_areas] can go. *)
Lemma compute_face_areas_cases (self : Grid) (rule : string) (order : Z) :
  (exists cached,
     _face_areas self = Some cached /\
     compute_face_areas kernel rule order self = mkOutcome (Ok cached) self []) \/
  (exists areas,
     _face_areas self = None /\
     areas_from_coords kernel self rule order = Ok areas /\
     compute_face_areas kernel rule order self
     = mkOutcome (Ok areas) (set_face_areas self (Some areas)) []) \/
  (exists e,
     _face_areas self = None /\
     areas_from_coords kernel self rule order = Raise e /\
     compute_face_areas kernel rule order self = mkOutcome (Raise e) self []).
Proof.
  destruct (_face_areas self) as [c|] eqn:Hc.
  - left. exists c. split; [reflexivity|]. apply compute_face_areas_cached, Hc.
  - destruct (areas_from_coords kernel self rule order) as [a|e] eqn:Ha.
    + right. left. exists a. repeat split; try assumption.
      apply compute_face_areas_fresh; assumption.
    + right. right. exists e. repeat split; try assumption.
      apply compute_face_areas_raises; assumption.
Qed.

(** The callers of [compute_face_areas] leave [self] as it leaves it. *)
Lemma integrate_self_after (var_ds : Dataset) (rule : string) (order : Z) (self : Grid) :
  self_after (integrate kernel fl var_ds rule order self)
  = self_after (compute_face_areas kernel rule order self).
Proof.
  destruct (value (compute_face_areas kernel rule order self)) as [areas|e] eqn:Ha.
  - destruct var_ds as [|[name vals] rest].
    + unfold integrate. unfold bindM at 1. rewrite Ha. reflexivity.
    + rewrite (integrate_unfold kernel fl _ _ _ _ _ Ha name vals rest eq_refl).
      reflexivity.
  - rewrite (integrate_raises kernel fl _ _ _ _ _ Ha). reflexivity.
Qed.

Lemma calculate_total_face_area_unfold (rule : string) (order : Z) (self : Grid) :
  calculate_total_face_area kernel fl rule order self
  = mkOutcome (Py.bind (value (compute_face_areas kernel rule order self))
                       (fun areas => Ok (Np.sum fl areas)))
              (self_after (compute_face_areas kernel rule order self)) [].
Proof.
  unfold calculate_total_face_area, bindM.
  rewrite compute_face_areas_silent.
  destruct (value (compute_face_areas kernel rule order self)); reflexivity.
Qed.

Lemma face_areas_unfold (self : Grid) :
  face_areas kernel self
  = match _face_areas self with
    | Some a => mkOutcome (Ok (Some a)) self []
    | None =>
        let o := compute_face_areas kernel "triangular" 4 self in
        mkOutcome (Py.bind (value o) (fun _ => Ok (_face_areas (self_after o))))
                  (self_after o) []
    end.
Proof.
  unfold face_areas. rewrite (bindM_ok _ _ _ self self [] eq_refl).
  destruct (_face_areas self) as [a|] eqn:Hc; [reflexivity|].
  cbn [app]. unfold bindM, get_self, ret.
  pose proof (compute_face_areas_silent kernel self "triangular" 4) as Hs.
  destruct (compute_face_areas kernel "triangular" 4 self) as [v s out].
  cbn in Hs. subst out. destruct v; reflexivity.
Qed.

(** [integrate] on a dataset without variables. *)
Lemma integrate_empty (rule : string) (order : Z) (self : Grid) :
  integrate kernel fl [] rule order self
  = mkOutcome (Py.bind (value (compute_face_areas kernel rule order self))
                       (fun _ => Raise IndexError))
              (self_after (compute_face_areas kernel rule order self)) [].
Proof.
  unfold integrate. unfold bindM at 1.
  rewrite compute_face_areas_silent.
  destruct (value (compute_face_areas kernel rule order self)); reflexivity.
Qed.

Lemma integrate_raises_eq (var_ds : Dataset) (rule : string) (order : Z)
    (self : Grid) (e : exn) :
  compute_face_areas kernel rule order self = mkOutcome (Raise e) self [] ->
  integrate kernel fl var_ds rule order self = mkOutcome (Raise e) self [].
Proof.
  intros H. rewrite (integrate_raises kernel fl var_ds rule order self e).
  - rewrite H. reflexivity.
  - rewrite H. reflexivity.
Qed.

End MethodFacts.

(** ** What the area methods do to the grid *)

Section MethodProperties.

Variable kernel :
  list Q -> list Q -> list Q -> list (list Z) -> Z -> string -> Z -> string ->
  result (list Q).

Variable fl : Np.arith.

Lemma compute_face_areas_ds (self : Grid) (rule : string) (order : Z) :
  ds (self_after (compute_face_areas kernel rule order self)) = ds self.
Proof.
  destruct (compute_face_areas_cases kernel self rule order)
    as [[c [_ ->]] | [[a [_ [_ ->]]] | [e [_ [_ ->]]]]]; reflexivity.
Qed.

Lemma compute_face_areas_keeps (self : Grid) (rule : string) (order : Z) (c : list Q) :
  _face_areas self = Some c ->
  self_after (compute_face_areas kernel rule order self) = self.
Proof.
  intros Hc. rewrite (compute_face_areas_cached kernel _ _ _ _ Hc). reflexivity.
Qed.

Lemma compute_face_areas_per_face (self : Grid) (rule : string) (order : Z) :
  kernel_per_face kernel -> cache_per_face self ->
  cache_per_face (self_after (compute_face_areas kernel rule order self)).
Proof.
  intros Hk Hc.
  destruct (compute_face_areas_cases kernel self rule order)
    as [[c [_ ->]] | [[a [_ [Ha ->]]] | [e [_ [_ ->]]]]]; cbn [self_after];
    try exact Hc.
  intros cached [= <-]. unfold nMesh2_face. cbn.
  apply (areas_from_coords_length kernel self rule order a Hk Ha).
Qed.

Lemma face_areas_ds (self : Grid) :
  ds (self_after (face_areas kernel self)) = ds self.
Proof.
  rewrite face_areas_unfold. destruct (_face_areas self); [reflexivity|].
  cbn [self_after]. apply compute_face_areas_ds.
Qed.

(** X1.  No area method touches the coordinates, the units, the
    connectivity or the topology dimension: whatever a call returns or
    raises, the dataset of the grid is what it was. *)
Theorem area_methods_change_only_the_cache
    (self : Grid) (rule : string) (order : Z) (var_ds : Dataset) :
  ds (self_after (compute_face_areas kernel rule order self)) = ds self /\
  ds (self_after (face_areas kernel self)) = ds self /\
  ds (self_after (calculate_total_face_area kernel fl rule order self)) = ds self /\
  ds (self_after (integrate kernel fl var_ds rule order self)) = ds self.
Proof.
  split; [apply compute_face_areas_ds|]. split.
  - rewrite face_areas_unfold. destruct (_face_areas self); [reflexivity|].
    cbn [self_after]. apply compute_face_areas_ds.
  - split.
    + rewrite calculate_total_face_area_unfold. apply compute_face_areas_ds.
    + rewrite integrate_self_after. apply compute_face_areas_ds.
Qed.

(** X2.  A filled cache is final: every area method leaves a grid whose
    cache is filled exactly as it found it. *)
Theorem filled_cache_is_never_replaced
    (self : Grid) (cached : list Q) (rule : string) (order : Z) (var_ds : Dataset) :
  _face_areas self = Some cached ->
  self_after (compute_face_areas kernel rule order self) = self /\
  self_after (face_areas kernel self) = self /\
  self_after (calculate_total_face_area kernel fl rule order self) = self /\
  self_after (integrate kernel fl var_ds rule order self) = self.
Proof.
  intros Hc.
  split; [eapply compute_face_areas_keeps, Hc|]. split.
  - rewrite face_areas_unfold, Hc. reflexivity.
  - split.
    + rewrite calculate_total_face_area_unfold. eapply compute_face_areas_keeps, Hc.
    + rewrite integrate_self_after. eapply compute_face_areas_keeps, Hc.
Qed.

(** X3.  With a helper that returns one area per face, a cache that holds
    one area per face (or nothing) still does so after any area method. *)
Theorem cache_stays_one_area_per_face
    (self : Grid) (rule : string) (order : Z) (var_ds : Dataset) :
  kernel_per_face kernel ->
  cache_per_face self ->
  cache_per_face (self_after (compute_face_areas kernel rule order self)) /\
  cache_per_face (self_after (face_areas kernel self)) /\
  cache_per_face (self_after (calculate_total_face_area kernel fl rule order self)) /\
  cache_per_face (self_after (integrate kernel fl var_ds rule order self)).
Proof.
  intros Hk Hc.
  split; [apply compute_face_areas_per_face; assumption|]. split.
  - rewrite face_areas_unfold. destruct (_face_areas self) eqn:E; [exact Hc|].
    cbn [self_after]. apply compute_face_areas_per_face; assumption.
  - split.
    + rewrite calculate_total_face_area_unfold.
      apply compute_face_areas_per_face; assumption.
    + rewrite integrate_self_after.
      apply compute_face_areas_per_face; assumption.
Qed.

(** X4.  A call of [integrate] that fails on its dataset has already
    computed the areas: on a grid with an empty cache, an empty dataset
    raises [IndexError] and a first field of the wrong length raises
    [ValueError], and either way the cache is filled afterwards. *)
Theorem failed_integrate_fills_the_cache
    (self : Grid) (rule : string) (order : Z) (areas : list Q)
    (name : string) (vals : list Q) (rest : Dataset) :
  _face_areas self = None ->
  areas_from_coords kernel self rule order = Ok areas ->
  length vals <> length areas ->
  integrate kernel fl [] rule order self
  = mkOutcome (Raise IndexError) (set_face_areas self (Some areas)) [] /\
  value (integrate kernel fl ((name, Np.vector vals) :: rest) rule order self)
  = Raise ValueError /\
  self_after (integrate kernel fl ((name, Np.vector vals) :: rest) rule order self)
  = set_face_areas self (Some areas).
Proof.
  intros Hn Ha Hlen.
  pose proof (compute_face_areas_fresh kernel _ _ _ _ Hn Ha) as Hc.
  split.
  - rewrite integrate_empty, Hc. reflexivity.
  - assert (Hv : value (compute_face_areas kernel rule order self) = Ok areas)
      by (rewrite Hc; reflexivity).
    rewrite (integrate_unfold kernel fl _ _ _ _ _ Hv name (Np.vector vals) rest eq_refl).
    cbn [value self_after]. rewrite Hc. cbn [self_after].
    split; [|reflexivity].
    apply dot_mismatch. congruence.
Qed.

(** X5.  A grid whose topology dimension is above 2 and which has no
    [Mesh2_node_z] cannot have its areas computed: every area method raises
    [AttributeError] before the helper is called, and the cache stays
    empty. *)
Theorem areas_need_z_above_dimension_2
    (self : Grid) (rule : string) (order : Z) (var_ds : Dataset) :
  2 < topology_dimension self ->
  Mesh2_node_z self = None ->
  _face_areas self = None ->
  compute_face_areas kernel rule order self = mkOutcome (Raise AttributeError) self [] /\
  face_areas kernel self = mkOutcome (Raise AttributeError) self [] /\
  calculate_total_face_area kernel fl rule order self
  = mkOutcome (Raise AttributeError) self [] /\
  integrate kernel fl var_ds rule order self = mkOutcome (Raise AttributeError) self [].
Proof.
  intros Hdim Hz Hn.
  assert (Ha : forall r o, areas_from_coords kernel self r o = Raise AttributeError).
  { intros r o. unfold areas_from_coords.
    replace (topology_dimension self >? 2) with true
      by (symmetry; apply Z.gtb_lt; exact Hdim).
    rewrite Hz. reflexivity. }
  assert (Hc : forall r o, compute_face_areas kernel r o self
                           = mkOutcome (Raise AttributeError) self []).
  { intros r o. apply compute_face_areas_raises; [exact Hn | apply Ha]. }
  split; [apply Hc|]. split.
  - rewrite face_areas_unfold, Hn. cbn zeta. rewrite Hc. reflexivity.
  - split.
    + rewrite calculate_total_face_area_unfold, Hc. reflexivity.
    + apply integrate_raises_eq. rewrite Hc. reflexivity.
Qed.

End MethodProperties.

(** X6.  Once the cache is filled, rule, order and helper no longer matter:
    [calculate_total_face_area] returns the sum of the cached array and
    [integrate] returns the same outcome for every rule, order and helper. *)
Theorem cached_results_ignore_rule_and_order
    (kernel kernel' :
       list Q -> list Q -> list Q -> list (list Z) -> Z -> string -> Z -> string ->
       result (list Q))
    (fl : Np.arith) (self : Grid) (cached : list Q)
    (rule rule' : string) (order order' : Z) (var_ds : Dataset) :
  _face_areas self = Some cached ->
  calculate_total_face_area kernel fl rule order self
  = mkOutcome (Ok (Np.sum fl cached)) self [] /\
  integrate kernel fl var_ds rule order self = integrate kernel' fl var_ds rule' order' self.
Proof.
  intros Hc.
  pose proof (compute_face_areas_cached kernel _ _ rule order Hc) as H1.
  pose proof (compute_face_areas_cached kernel' _ _ rule' order' Hc) as H2.
  split.
  - rewrite calculate_total_face_area_unfold, H1. reflexivity.
  - destruct var_ds as [|[name vals] rest].
    + rewrite !integrate_empty, H1, H2. reflexivity.
    + rewrite (integrate_unfold kernel fl _ rule order self cached
                 ltac:(rewrite H1; reflexivity) name vals rest eq_refl).
      rewrite (integrate_unfold kernel' fl _ rule' order' self cached
                 ltac:(rewrite H2; reflexivity) name vals rest eq_refl).
      rewrite H1, H2. reflexivity.
Qed.

(** ** Encoding *)

Section EncodingProperties.

Variable kernel :
  list Q -> list Q -> list Q -> list (list Z) -> Z -> string -> Z -> string ->
  result (list Q).
Variable Encoded : Type.
Variable encode_ugrid : MeshDataset -> result Encoded.
Variable encode_exodus : MeshDataset -> var_names -> result Encoded.
Variable encode_scrip :
  list (list Z) -> list Q -> list Q -> option (list Q) -> result Encoded.
Variable names : var_names.

Local Abbreviation encode :=
  (encode_as kernel Encoded encode_ugrid encode_exodus encode_scrip names).

Lemma encode_as_unfold (grid_type : string) (self : Grid) :
  encode grid_type self
  = if String.eqb grid_type "ugrid" then
      mkOutcome (encode_ugrid (ds self)) self []
    else if String.eqb grid_type "exodus" then
      mkOutcome (encode_exodus (ds self) names) self []
    else if String.eqb grid_type "scrip" then
      let o := face_areas kernel self in
      mkOutcome (Py.bind (value o)
                   (fun areas => encode_scrip (Mesh2_face_nodes self)
                                   (Mesh2_node_x self) (Mesh2_node_y self) areas))
                (self_after o) []
    else mkOutcome (Raise RuntimeError) self [].
Proof.
  unfold encode, encode_as. rewrite (bindM_ok _ _ _ self self [] eq_refl).
  destruct (String.eqb grid_type "ugrid"); [reflexivity|].
  destruct (String.eqb grid_type "exodus"); [reflexivity|].
  destruct (String.eqb grid_type "scrip"); [|reflexivity].
  cbn [app]. unfold bindM, lift.
  assert (Hs : stdout (face_areas kernel self) = []).
  { rewrite face_areas_unfold. destruct (_face_areas self); reflexivity. }
  destruct (face_areas kernel self) as [v s out]. cbn in Hs. subst out.
  destruct v; reflexivity.
Qed.

(** X8.  Encoding as "scrip" reads the [face_areas] property: on a grid
    with an empty cache it computes the areas with rule "triangular" and
    order 4, stores them and hands them to the encoder; when the areas
    cannot be computed the exception comes out and the encoder is not
    called. *)
Theorem encode_as_scrip_fills_the_cache (self : Grid) :
  _face_areas self = None ->
  match areas_from_coords kernel self "triangular" 4 with
  | Ok areas =>
      encode "scrip" self
      = mkOutcome (encode_scrip (Mesh2_face_nodes self) (Mesh2_node_x self)
                     (Mesh2_node_y self) (Some areas))
                  (set_face_areas self (Some areas)) []
  | Raise e => encode "scrip" self = mkOutcome (Raise e) self []
  end.
Proof.
  intros Hn. rewrite encode_as_unfold. cbn [String.eqb Ascii.eqb Bool.eqb].
  rewrite face_areas_unfold, Hn. cbn zeta.
  destruct (areas_from_coords kernel self "triangular" 4) as [a|e] eqn:Ha.
  - rewrite (compute_face_areas_fresh kernel _ _ _ _ Hn Ha). reflexivity.
  - rewrite (compute_face_areas_raises kernel _ _ _ _ Hn Ha). reflexivity.
Qed.

(** X9.  Encoding changes the grid in that one case only: for every grid
    type the dataset of the grid is unchanged, and unless the type is
    "scrip" and the cache is empty the whole grid is unchanged. *)
Theorem encode_as_changes_only_an_empty_cache (grid_type : string) (self : Grid) :
  ds (self_after (encode grid_type self)) = ds self /\
  (grid_type <> "scrip" \/ _face_areas self <> None ->
   self_after (encode grid_type self) = self).
Proof.
  rewrite encode_as_unfold.
  destruct (String.eqb grid_type "ugrid"); [split; reflexivity|].
  destruct (String.eqb grid_type "exodus"); [split; reflexivity|].
  destruct (String.eqb_spec grid_type "scrip") as [->|Hne]; [|split; reflexivity].
  cbn [self_after]. split.
  - apply (face_areas_ds kernel).
  - intros [H|H]; [contradiction|].
    destruct (_face_areas self) as [c|] eqn:Hc; [|contradiction].
    rewrite face_areas_unfold, Hc. reflexivity.
Qed.

(** A grid type other than the three is refused before any encoder or area
    computation. *)
Lemma encode_as_refuses_other_types (grid_type : string) (self : Grid) :
  grid_type <> "ugrid" -> grid_type <> "exodus" -> grid_type <> "scrip" ->
  encode grid_type self = mkOutcome (Raise RuntimeError) self [].
Proof.
  intros H1 H2 H3. rewrite encode_as_unfold.
  destruct (String.eqb_spec grid_type "ugrid"); [contradiction|].
  destruct (String.eqb_spec grid_type "exodus"); [contradiction|].
  destruct (String.eqb_spec grid_type "scrip"); [contradiction|].
  reflexivity.
Qed.

End EncodingProperties.

(** ** Reading and encoding by type tag *)

(** X10.  The mesh type of a grid read from a file is not always a grid
    type the grid can be encoded as: whenever [__from_ds__] has read a
    dataset under a mesh type other than "ugrid" and "scrip" (that is under
    "exo" or "shp"), [encode_as] of that same tag raises [RuntimeError]
    and leaves the grid untouched; and only the "ugrid" reader can change
    the variable names. *)
Theorem mesh_type_is_not_always_a_grid_type
    (Raw : Type)
    (read_exodus : Raw -> var_names -> result MeshDataset)
    (read_scrip : Raw -> result MeshDataset)
    (read_ugrid : Raw -> var_names -> result (MeshDataset * var_names))
    (read_shpfile : Raw -> result MeshDataset)
    (kernel :
       list Q -> list Q -> list Q -> list (list Z) -> Z -> string -> Z -> string ->
       result (list Q))
    (Encoded : Type)
    (encode_ugrid : MeshDataset -> result Encoded)
    (encode_exodus : MeshDataset -> var_names -> result Encoded)
    (encode_scrip :
       list (list Z) -> list Q -> list Q -> option (list Q) -> result Encoded)
    (tag : string) (names names' : var_names) (dataset : Raw) (d : MeshDataset)
    (self : Grid) :
  from_ds Raw read_exodus read_scrip read_ugrid read_shpfile tag names dataset
  = Ok (d, names') ->
  tag <> "ugrid" ->
  names' = names /\
  (tag <> "scrip" ->
   (tag = "exo" \/ tag = "shp") /\
   encode_as kernel Encoded encode_ugrid encode_exodus encode_scrip names' tag self
   = mkOutcome (Raise RuntimeError) self []).
Proof.
  intros Hread Hu. unfold from_ds in Hread.
  destruct (String.eqb_spec tag "exo") as [->|He].
  - destruct (read_exodus dataset names); [|discriminate].
    cbn in Hread. injection Hread as _ <-. split; [reflexivity|].
    intros _. split; [left; reflexivity|].
    apply encode_as_refuses_other_types; discriminate.
  - destruct (String.eqb_spec tag "scrip") as [->|Hs].
    + destruct (read_scrip dataset); [|discriminate].
      cbn in Hread. injection Hread as _ <-. split; [reflexivity|].
      intros Hc. contradiction.
    + destruct (String.eqb_spec tag "ugrid") as [->|_]; [contradiction|].
      destruct (String.eqb_spec tag "shp") as [->|Hp]; [|discriminate].
      destruct (read_shpfile dataset); [|discriminate].
      cbn in Hread. injection Hread as _ <-. split; [reflexivity|].
      intros _. split; [right; reflexivity|].
      apply encode_as_refuses_other_types; discriminate.
Qed.

(** ** Grids built from vertices *)

Lemma column_ok (d k : nat) (vertices : list (list Q)) :
  (k < d)%nat -> column d k vertices = Ok (map (fun row => nth k row 0%Q) vertices).
Proof.
  intros H. unfold column.
  destruct (Nat.ltb_spec k d); [reflexivity | lia].
Qed.

Lemma column_none (d k : nat) (vertices : list (list Q)) :
  (d <= k)%nat -> column d k vertices = Raise IndexError.
Proof.
  intros H. unfold column.
  destruct (Nat.ltb_spec k d); [lia | reflexivity].
Qed.

Lemma index_head {A} (a : A) (l : list A) : Py.index (a :: l) 0 = Ok a.
Proof.
  apply index_ok_iff. exists 0%nat. split; [|reflexivity].
  apply (position_nonneg (length (a :: l)) 0). cbn. lia.
Qed.

Lemma index_nil {A} (i : Z) : Py.index (@nil A) i = Raise IndexError.
Proof.
  unfold Py.index. destruct (position (length (@nil A)) i) as [k|] eqn:Hp; [|reflexivity].
  apply position_lt in Hp. cbn in Hp. lia.
Qed.

(** The dataset [__from_vert__] builds from at least one vertex with at
    least two coordinates. *)
Lemma from_vert_ok (row0 : list Q) (rest : list (list Q)) :
  (2 <= length row0)%nat ->
  from_vert (row0 :: rest)
  = Ok (mkDs (map (fun row => nth 0 row 0%Q) (row0 :: rest))
             "degrees_east"
             (map (fun row => nth 1 row 0%Q) (row0 :: rest))
             (if (2 <? length row0)%nat
              then Some (map (fun row => nth 2 row 0%Q) (row0 :: rest))
              else None)
             [map Z.of_nat (seq 0 (length (row0 :: rest)))]
             (Z.of_nat (length row0))).
Proof.
  intros Hd. unfold from_vert. rewrite index_head. cbn [Py.bind].
  rewrite (column_ok _ 0) by lia. cbn [Py.bind].
  rewrite (column_ok _ 1) by lia. cbn [Py.bind].
  destruct (Nat.ltb_spec 2 (length row0)) as [H2|H2].
  - rewrite (column_ok _ 2) by lia. cbn [Py.bind]. rewrite !length_map. reflexivity.
  - cbn [Py.bind]. rewrite !length_map. reflexivity.
Qed.

(** X11.  [Grid(vertices)] on an array of rank 2 builds a grid exactly when
    there is at least one vertex with at least two coordinates; it raises
    [IndexError] otherwise.  The grid it builds has an empty cache. *)
Theorem init_from_vertices_needs_a_vertex_with_two_coordinates
    (Raw : Type) (parse_grid_type : Raw -> result string)
    (read_exodus : Raw -> var_names -> result MeshDataset)
    (read_scrip : Raw -> result MeshDataset)
    (read_ugrid : Raw -> var_names -> result (MeshDataset * var_names))
    (read_shpfile : Raw -> result MeshDataset)
    (vertices : list (list Q)) :
  rectangular vertices ->
  let built :=
    init Raw parse_grid_type read_exodus read_scrip read_ugrid read_shpfile
         (NdArray Raw vertices) in
  ((exists row0 rest, vertices = row0 :: rest /\ (2 <= length row0)%nat) ->
   exists c, built = Ok c /\ _face_areas (grid c) = None) /\
  (~ (exists row0 rest, vertices = row0 :: rest /\ (2 <= length row0)%nat) ->
   built = Raise IndexError).
Proof.
  intros _ built. unfold built, init. split.
  - intros [row0 [rest [-> Hd]]]. rewrite (from_vert_ok _ _ Hd). cbn [Py.bind].
    eexists. split; reflexivity.
  - intros Hno. destruct vertices as [|row0 rest].
    + reflexivity.
    + assert (Hd : (length row0 < 2)%nat).
      { destruct (Nat.lt_ge_cases (length row0) 2) as [H|H]; [exact H|].
        exfalso. apply Hno. exists row0, rest. split; [reflexivity | exact H]. }
      unfold from_vert. rewrite index_head. cbn [Py.bind].
      destruct (length row0) as [|[|n]] eqn:E; try lia.
      * rewrite (column_none 0 0) by lia. reflexivity.
      * rewrite (column_ok 1 0) by lia. cbn [Py.bind].
        rewrite (column_none 1 1) by lia. reflexivity.
Qed.

Lemma Ok_inj {A} (a b : A) : Ok a = Ok b -> a = b.
Proof. congruence. Qed.

(** Gathering a sequence at 0, 1, ..., n-1 gives the sequence back. *)
Lemma mapM_index_seq {A} (p l : list A) :
  mapM (fun k => Py.index (p ++ l) (Z.of_nat k)) (seq (length p) (length l)) = Ok l.
Proof.
  revert p. induction l as [|a l IH]; intros p; cbn [length seq mapM].
  - reflexivity.
  - assert (Ha : Py.index (p ++ a :: l) (Z.of_nat (length p)) = Ok a).
    { apply index_ok_iff. exists (length p). split.
      - apply position_nonneg. rewrite length_app. cbn. lia.
      - rewrite nth_error_app2 by lia. rewrite Nat.sub_diag. reflexivity. }
    rewrite Ha. cbn [Py.bind].
    specialize (IH (p ++ [a])). rewrite <- app_assoc in IH. cbn [app] in IH.
    rewrite length_app in IH. cbn [length] in IH.
    replace (length p + 1)%nat with (S (length p)) in IH by lia.
    rewrite IH. reflexivity.
Qed.

Lemma astype_int32_seq (n : nat) :
  Z.of_nat n <= 2 ^ 31 ->
  map Np.astype_int32 (map Z.of_nat (seq 0 n)) = map Z.of_nat (seq 0 n).
Proof.
  intros Hn. rewrite map_map. apply map_ext_in. intros k Hk.
  apply in_seq in Hk. apply astype_int32_small. unfold int32_range. lia.
Qed.

Lemma astype_uint32_seq (n : nat) :
  Z.of_nat n <= 2 ^ 32 ->
  map Np.astype_uint32 (map Z.of_nat (seq 0 n)) = map Z.of_nat (seq 0 n).
Proof.
  intros Hn. rewrite map_map. apply map_ext_in. intros k Hk.
  apply in_seq in Hk. unfold Np.astype_uint32. apply Z.mod_small. lia.
Qed.

(** The detection on a grid with the single face 0, 1, ..., n-1. *)
Lemma face_lon_single_face (self : Grid) :
  Mesh2_face_nodes self = [map Z.of_nat (seq 0 (nMesh2_node self))] ->
  Z.of_nat (nMesh2_node self) <= 2 ^ 31 ->
  face_lon self = Ok [Mesh2_node_x self].
Proof.
  intros Ht Hn. unfold face_lon, Np.take. rewrite Ht. cbn [map mapM].
  rewrite astype_int32_seq by exact Hn. rewrite mapM_map.
  pose proof (mapM_index_seq [] (Mesh2_node_x self)) as H.
  cbn [app length] in H. unfold nMesh2_node. rewrite H. reflexivity.
Qed.

Lemma single_face_detection (self : Grid) (threshold : Q) :
  Mesh2_face_nodes self = [map Z.of_nat (seq 0 (nMesh2_node self))] ->
  Z.of_nat (nMesh2_node self) <= 2 ^ 31 ->
  Mesh2_node_x self <> [] ->
  compute_antimeridian_faces self threshold
  = if existsb id (row_sides threshold (Mesh2_node_x self))
    then Raise TypeError
    else Ok ([], Np.squeeze [] (length (Mesh2_node_x self))).
Proof.
  intros Ht Hn Hx.
  pose proof (face_lon_single_face self Ht Hn) as Hl.
  assert (Hm : crossed_mask_2d self threshold
               = Ok (map (row_sides threshold) [Mesh2_node_x self])).
  { apply crossed_mask_2d_intro; [exact Hl | discriminate |].
    constructor; [exact Hx | constructor]. }
  cbn [map] in Hm.
  destruct (existsb id (row_sides threshold (Mesh2_node_x self))) eqn:E.
  - apply (compute_antimeridian_faces_one_flag self threshold _ 0 Hm).
    unfold Np.argwhere, Np.any_axis1. cbn [map Np.argwhere_from]. rewrite E.
    reflexivity.
  - rewrite (compute_antimeridian_faces_no_flag self threshold _ Hm).
    + cbn [ncols]. rewrite row_sides_length. reflexivity.
    + unfold Np.any_axis1. cbn [map]. rewrite E. repeat constructor.
Qed.

(** X13.  A grid built from vertices is never split.  Its single face lists
    all nodes in order, so the detection gathers the longitudes as given;
    when no side of the face exceeds 180 degrees
    [split_antimeridian_faces] returns [(None, None, None)], and as soon as
    one does, it raises [TypeError]. *)
Theorem vertex_grid_is_never_split
    (vertices : list (list Q)) (d : MeshDataset) :
  rectangular vertices ->
  from_vert vertices = Ok d ->
  Z.of_nat (length vertices) <= 2 ^ 31 ->
  face_lon (grid_of d) = Ok [map (fun row => nth 0 row 0%Q) vertices] /\
  ((exists j, (j < length vertices)%nat /\
              Spec.side_crosses (map (fun row => nth 0 row 0%Q) vertices)
                                default_threshold j) ->
   split_antimeridian_faces (grid_of d) = Raise TypeError) /\
  (~ (exists j, (j < length vertices)%nat /\
                Spec.side_crosses (map (fun row => nth 0 row 0%Q) vertices)
                                  default_threshold j) ->
   split_antimeridian_faces (grid_of d) = Ok NoneTriple).
Proof.
  intros _ Hv Hn.
  destruct vertices as [|row0 rest]; [discriminate|].
  destruct (Nat.lt_ge_cases (length row0) 2) as [Hd|Hd].
  { exfalso. unfold from_vert in Hv. rewrite index_head in Hv. cbn [Py.bind] in Hv.
    destruct (length row0) as [|[|n]] eqn:E; try lia.
    - rewrite (column_none 0 0) in Hv by lia. discriminate.
    - rewrite (column_ok 1 0) in Hv by lia. cbn [Py.bind] in Hv.
      rewrite (column_none 1 1) in Hv by lia. discriminate. }
  rewrite (from_vert_ok _ _ Hd) in Hv. apply Ok_inj in Hv. subst d.
  set (x := map (fun row => nth 0 row 0%Q) (row0 :: rest)).
  set (g := grid_of _).
  assert (Hlen : length x = length (row0 :: rest)) by apply length_map.
  assert (Ht : Mesh2_face_nodes g = [map Z.of_nat (seq 0 (nMesh2_node g))]).
  { unfold g, grid_of, nMesh2_node. cbn [Mesh2_face_nodes Mesh2_node_x ds_face_nodes ds_node_x].
    fold x. rewrite Hlen. reflexivity. }
  assert (Hn' : Z.of_nat (nMesh2_node g) <= 2 ^ 31).
  { unfold g, grid_of, nMesh2_node. cbn [Mesh2_node_x ds_node_x]. fold x.
    rewrite Hlen. exact Hn. }
  assert (Hx : Mesh2_node_x g <> []) by (unfold g, x; discriminate).
  split; [apply (face_lon_single_face g Ht Hn')|].
  pose proof (single_face_detection g default_threshold Ht Hn' Hx) as Hdet.
  change (Mesh2_node_x g) with x in Hdet.
  rewrite <- Hlen.
  split.
  - intros Hcross. apply row_sides_any in Hcross.
    rewrite Hcross in Hdet.
    unfold split_antimeridian_faces, split_antimeridian_body. rewrite Hdet. reflexivity.
  - intros Hno.
    destruct (existsb id (row_sides default_threshold x)) eqn:E.
    + exfalso. apply Hno. apply row_sides_any. exact E.
    + unfold split_antimeridian_faces, split_antimeridian_body. rewrite Hdet. reflexivity.
Qed.

(** X14.  On a grid built from vertices the helper is always reached and
    always told that the coordinates are spherical: the units are
    "degrees_east", the face-node table is the one face 0, ..., n-1, and
    [z] is the third column when there is one and zeros otherwise. *)
Theorem vertex_grid_areas_are_spherical
    (kernel :
       list Q -> list Q -> list Q -> list (list Z) -> Z -> string -> Z -> string ->
       result (list Q))
    (vertices : list (list Q)) (d : MeshDataset) (rule : string) (order : Z) :
  rectangular vertices ->
  from_vert vertices = Ok d ->
  Z.of_nat (length vertices) <= 2 ^ 32 ->
  areas_from_coords kernel (grid_of d) rule order
  = kernel (map (fun row => nth 0 row 0%Q) vertices)
           (map (fun row => nth 1 row 0%Q) vertices)
           (match ds_node_z d with
            | Some z => z
            | None => repeat 0%Q (length vertices)
            end)
           [map Z.of_nat (seq 0 (length vertices))]
           (ds_topology_dimension d) rule order "spherical" /\
  (ds_node_z d = None <-> ds_topology_dimension d = 2).
Proof.
  intros _ Hv Hn.
  destruct vertices as [|row0 rest]; [discriminate|].
  destruct (Nat.lt_ge_cases (length row0) 2) as [Hd|Hd].
  { exfalso. unfold from_vert in Hv. rewrite index_head in Hv. cbn [Py.bind] in Hv.
    destruct (length row0) as [|[|n]] eqn:E; try lia.
    - rewrite (column_none 0 0) in Hv by lia. discriminate.
    - rewrite (column_ok 1 0) in Hv by lia. cbn [Py.bind] in Hv.
      rewrite (column_none 1 1) in Hv by lia. discriminate. }
  rewrite (from_vert_ok _ _ Hd) in Hv. apply Ok_inj in Hv. subst d.
  unfold areas_from_coords, grid_of, nMesh2_node.
  cbn [Mesh2_node_x Mesh2_node_x_units Mesh2_node_y Mesh2_node_z Mesh2_face_nodes
       topology_dimension ds_node_x ds_node_x_units ds_node_y ds_node_z
       ds_face_nodes ds_topology_dimension].
  assert (Hs : forall (f : list Z -> list Z) r, map f [r] = [f r]) by reflexivity.
  rewrite Hs, length_map, astype_uint32_seq by exact Hn.
  replace (str_contains "degree" "degrees_east") with true by reflexivity.
  cbn [negb].
  destruct (Nat.ltb_spec 2 (length row0)) as [H2|H2].
  - replace (Z.of_nat (length row0) >? 2) with true
      by (symmetry; apply Z.gtb_lt; lia).
    cbn [Py.bind]. split; [reflexivity|].
    split; [discriminate | intros H; lia].
  - replace (Z.of_nat (length row0) >? 2) with false
      by (symmetry; rewrite Z.gtb_ltb; apply Z.ltb_ge; lia).
    cbn [Py.bind]. split; [reflexivity|].
    split; [intros _; lia | reflexivity].
Qed.

(** ** Every path through the detection *)

Lemma mapM_raise {A B} (f : A -> result B) (l : list A) (e : exn) :
  mapM f l = Raise e -> exists a, In a l /\ f a = Raise e.
Proof.
  induction l as [|a l IH]; cbn [mapM]; [discriminate|].
  destruct (f a) as [b|e'] eqn:Hf; cbn [Py.bind].
  - destruct (mapM f l) as [bs|e'] eqn:Hm; cbn [Py.bind]; [discriminate|].
    intros [= ->]. destruct (IH eq_refl) as [a' [Hin Ha']].
    exists a'. split; [right; exact Hin | exact Ha'].
  - intros [= ->]. exists a. split; [left; reflexivity | exact Hf].
Qed.

Lemma mapM_ok_iff {A B} (f : A -> result B) (l : list A) :
  (exists bs, mapM f l = Ok bs) <-> Forall (fun a => exists b, f a = Ok b) l.
Proof.
  split.
  - intros [bs H]. apply mapM_Forall2 in H.
    induction H as [|a b l bs Hab H IH]; constructor; [exists b; exact Hab | exact IH].
  - intros H. induction H as [|a l [b Hb] H [bs IH]]; cbn [mapM].
    + exists []. reflexivity.
    + rewrite Hb, IH. cbn [Py.bind]. eexists. reflexivity.
Qed.

Lemma index_raise {A} (l : list A) (i : Z) (e : exn) :
  Py.index l i = Raise e -> e = IndexError /\ position (length l) i = None.
Proof.
  unfold Py.index. destruct (position (length l) i) as [k|] eqn:Hp.
  - destruct (nth_error l k) eqn:Hn; [discriminate|].
    apply position_lt in Hp. apply nth_error_None in Hn. lia.
  - intros [= <-]. split; reflexivity.
Qed.

Lemma index_ok_position {A} (l : list A) (i : Z) :
  (exists a, Py.index l i = Ok a) <-> position (length l) i <> None.
Proof.
  split.
  - intros [a H]. apply index_ok_iff in H as [k [Hp _]]. rewrite Hp. discriminate.
  - intros H. destruct (position (length l) i) as [k|] eqn:Hp; [|contradiction].
    eapply index_defined, Hp.
Qed.

(** A gather succeeds exactly when every index names an element, and it
    fails with [IndexError] only. *)
Lemma take_ok_iff {A} (x : list A) (idx : list (list Z)) :
  (exists r, Np.take x idx = Ok r) <->
  Forall (Forall (fun i => position (length x) i <> None)) idx.
Proof.
  unfold Np.take. rewrite mapM_ok_iff. split; intros H.
  - eapply Forall_impl; [|exact H]. intros row Hrow. cbn beta in Hrow.
    apply mapM_ok_iff in Hrow. eapply Forall_impl; [|exact Hrow].
    intros i Hi. apply index_ok_position, Hi.
  - eapply Forall_impl; [|exact H]. intros row Hrow. cbn beta.
    apply mapM_ok_iff. eapply Forall_impl; [|exact Hrow].
    intros i Hi. apply index_ok_position, Hi.
Qed.

Lemma take_raise {A} (x : list A) (idx : list (list Z)) (e : exn) :
  Np.take x idx = Raise e -> e = IndexError.
Proof.
  unfold Np.take. intros H. apply mapM_raise in H as [row [_ H]].
  apply mapM_raise in H as [i [_ H]]. apply index_raise in H as [H _]. exact H.
Qed.

Lemma take_cases {A} (x : list A) (idx : list (list Z)) :
  (exists r, Np.take x idx = Ok r /\
             Forall (Forall (fun i => position (length x) i <> None)) idx) \/
  (Np.take x idx = Raise IndexError /\
   ~ Forall (Forall (fun i => position (length x) i <> None)) idx).
Proof.
  destruct (Np.take x idx) as [r|e] eqn:H.
  - left. exists r. split; [reflexivity|]. apply take_ok_iff. exists r. exact H.
  - right. rewrite (take_raise _ _ _ H) in *. split; [reflexivity|].
    intros HF. apply take_ok_iff in HF as [r Hr]. congruence.
Qed.

Lemma pad_wrap_drop_cases (a : list (list Q)) :
  (a <> [] /\ Forall (fun row => row <> []) a /\
   Np.pad_wrap_drop a = Ok (map (fun row => row ++ [hd 0%Q row]) a)) \/
  ((a = [] \/ Exists (fun row => row = []) a) /\
   Np.pad_wrap_drop a = Raise ValueError).
Proof.
  destruct (Np.pad_wrap_drop a) as [p|e] eqn:H.
  - left. apply pad_wrap_drop_ok in H as [H1 [H2 ->]]. repeat split; assumption.
  - right. destruct a as [|r a].
    + cbn in H. injection H as <-. split; [left; reflexivity | reflexivity].
    + unfold Np.pad_wrap_drop in H. apply mapM_raise in H as [row [Hin Hrow]].
      destruct row; [|discriminate]. injection Hrow as <-.
      split; [|reflexivity]. right. apply Exists_exists.
      exists []. split; [exact Hin | reflexivity].
Qed.

(** The four ways [compute_antimeridian_faces] can go. *)
Lemma compute_antimeridian_faces_cases (self : Grid) (threshold : Q) :
  (face_lon self = Raise IndexError /\
   compute_antimeridian_faces self threshold = Raise IndexError) \/
  (exists lon,
     face_lon self = Ok lon /\
     (lon = [] \/ Exists (fun row => row = []) lon) /\
     compute_antimeridian_faces self threshold = Raise ValueError) \/
  (exists lon,
     face_lon self = Ok lon /\ lon <> [] /\ Forall (fun row => row <> []) lon /\
     let flags := Np.any_axis1 (map (row_sides threshold) lon) in
     ((exists k, Np.argwhere flags = [k] /\
                 compute_antimeridian_faces self threshold = Raise TypeError) \/
      (length (Np.argwhere flags) <> 1%nat /\
       exists m, compute_antimeridian_faces self threshold
                 = Ok (Np.argwhere flags, m)))).
Proof.
  destruct (face_lon self) as [lon|e] eqn:Hl.
  - destruct (pad_wrap_drop_cases lon) as [[Hne [Hrows Hp]] | [Hbad Hp]].
    + right. right. exists lon. split; [reflexivity|]. split; [exact Hne|].
      split; [exact Hrows|]. cbn zeta.
      pose proof (crossed_mask_2d_intro self threshold lon Hl Hne Hrows) as Hm.
      set (flags := Np.any_axis1 (map (row_sides threshold) lon)).
      destruct (Np.argwhere flags) as [|k [|k' ks]] eqn:E.
      * right. split; [cbn; lia|].
        eexists. apply compute_antimeridian_faces_no_flag; [exact Hm|].
        apply argwhere_nil. exact E.
      * left. exists k. split; [reflexivity|].
        apply (compute_antimeridian_faces_one_flag self threshold _ k Hm). exact E.
      * right. split; [cbn; lia|].
        destruct (compute_antimeridian_faces_many self threshold _ Hm) as [m Hc].
        { fold flags. rewrite E. cbn. lia. }
        fold flags in Hc. rewrite E in Hc. exists m. exact Hc.
    + right. left. exists lon. split; [reflexivity|]. split; [exact Hbad|].
      unfold compute_antimeridian_faces, crossed_mask_2d. rewrite Hl. cbn [Py.bind].
      rewrite Hp. reflexivity.
  - left. unfold face_lon in Hl. pose proof (take_raise _ _ _ Hl) as ->.
    split; [reflexivity|].
    unfold compute_antimeridian_faces, crossed_mask_2d, face_lon. rewrite Hl. reflexivity.
Qed.

(** ** What the detection returns and when it raises *)

Lemma argwhere_from_bounds (m : list bool) (i : Z) :
  Forall (fun k => i <= k < i + Z.of_nat (length m)) (Np.argwhere_from i m).
Proof.
  apply Forall_forall. intros k Hk. apply argwhere_from_spec in Hk as [n [-> Hn]].
  assert (n < length m)%nat by (apply nth_error_Some; rewrite Hn; discriminate).
  lia.
Qed.

Lemma argwhere_from_sorted (m : list bool) (i : Z) :
  StronglySorted Z.lt (Np.argwhere_from i m).
Proof.
  revert i. induction m as [|b m IH]; intros i; cbn [Np.argwhere_from].
  - constructor.
  - destruct b; [|apply IH].
    constructor; [apply IH|].
    eapply Forall_impl; [|apply argwhere_from_bounds].
    intros k Hk. cbn beta in Hk. lia.
Qed.

Lemma sorted_singleton (l : list Z) (a : Z) :
  StronglySorted Z.lt l -> (forall k, In k l <-> k = a) -> l = [a].
Proof.
  intros Hs Hin. destruct l as [|b l].
  - exfalso. apply (proj2 (Hin a) eq_refl).
  - assert (b = a) by (apply Hin; left; reflexivity). subst b.
    destruct l as [|c l]; [reflexivity|].
    assert (c = a) by (apply Hin; right; left; reflexivity). subst c.
    inversion Hs as [|? ? _ Hall]; subst. inversion Hall; subst. lia.
Qed.

Lemma flags_length (self : Grid) (threshold : Q) (lon : list (list Q)) :
  face_lon self = Ok lon ->
  length (Np.any_axis1 (map (row_sides threshold) lon)) = nMesh2_face self.
Proof.
  intros Hl. unfold Np.any_axis1. rewrite !length_map.
  symmetry. apply (Forall2_length (face_lon_gathers _ _ Hl)).
Qed.

Lemma flag_of_row (threshold : Q) (lon : list (list Q)) (n : nat) (row : list Q) :
  nth_error lon n = Some row ->
  (nth_error (Np.any_axis1 (map (row_sides threshold) lon)) n = Some true <->
   exists j, (j < length row)%nat /\ Spec.side_crosses row threshold j).
Proof.
  intros Hrow. unfold Np.any_axis1. rewrite !nth_error_map, Hrow. cbn.
  rewrite <- row_sides_any. split; [intros [= H]; exact H | intros ->; reflexivity].
Qed.

Lemma Forall2_empty_rows {A B} (R : A -> B -> Prop)
    (t : list (list A)) (lon : list (list B)) :
  Forall2 (Forall2 R) t lon ->
  (lon = [] <-> t = []) /\
  (Exists (fun row => row = []) lon <-> Exists (fun row => row = []) t).
Proof.
  intros HF. induction HF as [|row lrow t lon Hrow HF [_ IH]].
  - split; [split; reflexivity|]. split; intros H; inversion H.
  - split; [split; discriminate|].
    rewrite !Exists_cons, IH.
    assert (Hr : lrow = [] <-> row = []).
    { destruct Hrow; split; intros; try reflexivity; discriminate. }
    rewrite Hr. reflexivity.
Qed.

(** X15.  The tuple the detection returns lists the flagged faces in
    increasing order, each a row number of the table, and never has
    exactly one entry. *)
Theorem crossed_indices_are_sorted_rows
    (self : Grid) (threshold : Q) (idx : list Z) (m : Np.bool_array) :
  compute_antimeridian_faces self threshold = Ok (idx, m) ->
  StronglySorted Z.lt idx /\
  Forall (fun k => 0 <= k < Z.of_nat (nMesh2_face self)) idx /\
  length idx <> 1%nat.
Proof.
  intros Hc.
  destruct (compute_antimeridian_faces_ok _ _ _ _ Hc) as [mask [Hm [-> Hone]]].
  destruct (crossed_mask_2d_ok _ _ _ Hm) as [lon [Hl [_ [_ ->]]]].
  split; [apply argwhere_from_sorted|]. split; [|exact Hone].
  rewrite <- (flags_length self threshold lon Hl).
  apply (argwhere_from_bounds _ 0).
Qed.

(** X16.  Whenever exactly one face of the grid has a side longer than the
    threshold, the detection raises [TypeError], whatever the size of the
    grid. *)
Theorem lone_crossing_face_raises_type_error
    (self : Grid) (threshold : Q) (lon : list (list Q)) (n : nat) (row : list Q) :
  face_lon self = Ok lon ->
  Forall (fun r => r <> []) lon ->
  nth_error lon n = Some row ->
  (exists j, (j < length row)%nat /\ Spec.side_crosses row threshold j) ->
  (forall n' row', n' <> n -> nth_error lon n' = Some row' ->
     ~ exists j, (j < length row')%nat /\ Spec.side_crosses row' threshold j) ->
  compute_antimeridian_faces self threshold = Raise TypeError.
Proof.
  intros Hl Hrows Hrow Hcross Hothers.
  assert (Hne : lon <> []) by (intros ->; destruct n; discriminate).
  pose proof (crossed_mask_2d_intro self threshold lon Hl Hne Hrows) as Hm.
  apply (compute_antimeridian_faces_one_flag self threshold _ (Z.of_nat n) Hm).
  apply sorted_singleton; [apply argwhere_from_sorted|].
  intros k. rewrite argwhere_spec. split.
  - intros [n' [-> Hflag]]. f_equal.
    destruct (Nat.eq_dec n' n) as [E|E]; [exact E|]. exfalso.
    assert (Hn' : (n' < length lon)%nat).
    { rewrite <- (length_map (row_sides threshold)).
      rewrite <- (length_map (existsb id)).
      apply nth_error_Some. unfold Np.any_axis1 in Hflag. rewrite Hflag. discriminate. }
    destruct (nth_error lon n') as [row'|] eqn:Hrow'.
    + apply (Hothers n' row' E Hrow'). apply (flag_of_row threshold lon n' row' Hrow').
      exact Hflag.
    + apply nth_error_None in Hrow'. lia.
  - intros ->. exists n. split; [reflexivity|].
    apply (flag_of_row threshold lon n row Hrow). exact Hcross.
Qed.

(** X17.  The detection raises [IndexError] exactly when some entry of the
    face-node table, cast to [int32], names no node; otherwise it raises
    [ValueError] exactly when the table has no row or a row without
    slots. *)
Theorem detection_errors (self : Grid) (threshold : Q) :
  (compute_antimeridian_faces self threshold = Raise IndexError <->
   ~ Forall (Forall (names_a_node self)) (Mesh2_face_nodes self)) /\
  (compute_antimeridian_faces self threshold = Raise ValueError <->
   Forall (Forall (names_a_node self)) (Mesh2_face_nodes self) /\
   (Mesh2_face_nodes self = [] \/
    Exists (fun row => row = []) (Mesh2_face_nodes self))).
Proof.
  assert (Hwf : Forall (Forall (names_a_node self)) (Mesh2_face_nodes self) <->
                exists lon, face_lon self = Ok lon).
  { unfold face_lon. rewrite take_ok_iff. unfold names_a_node, nMesh2_node.
    rewrite Forall_map. split; intros H; (eapply Forall_impl; [|exact H]);
      intros row Hrow; cbn beta in *.
    - rewrite Forall_map. exact Hrow.
    - rewrite Forall_map in Hrow. exact Hrow. }
  assert (Hshape : forall lon, face_lon self = Ok lon ->
            ((lon = [] \/ Exists (fun row => row = []) lon) <->
             (Mesh2_face_nodes self = [] \/
              Exists (fun row => row = []) (Mesh2_face_nodes self)))).
  { intros lon Hl.
    destruct (Forall2_empty_rows _ _ _ (face_lon_gathers _ _ Hl)) as [H1 H2].
    rewrite H1, H2. reflexivity. }
  destruct (compute_antimeridian_faces_cases self threshold)
    as [[Hl Hc] | [[lon [Hl [Hbad Hc]]] | [lon [Hl [Hne [Hrows Hc]]]]]].
  - rewrite Hc. split.
    + split; [|reflexivity]. intros _ HF. apply Hwf in HF as [lon HF]. congruence.
    + split; [discriminate|]. intros [HF _]. apply Hwf in HF as [lon HF]. congruence.
  - rewrite Hc. split.
    + split; [discriminate|]. intros HF. exfalso. apply HF, Hwf. exists lon. exact Hl.
    + split; [|reflexivity]. intros _. split; [apply Hwf; exists lon; exact Hl|].
      apply (Hshape lon Hl). exact Hbad.
  - assert (Hgood : ~ (Mesh2_face_nodes self = [] \/
                       Exists (fun row => row = []) (Mesh2_face_nodes self))).
    { intros Hb. apply (Hshape lon Hl) in Hb as [Hb|Hb]; [contradiction|].
      apply Exists_exists in Hb as [r [Hin ->]].
      rewrite Forall_forall in Hrows. apply (Hrows [] Hin). reflexivity. }
    cbn zeta in Hc. destruct Hc as [[k [_ Hc]] | [_ [m Hc]]]; rewrite Hc; split;
      (split; [discriminate|]); intros H.
    + exfalso. apply H, Hwf. exists lon. exact Hl.
    + exfalso. apply Hgood, H.
    + exfalso. apply H, Hwf. exists lon. exact Hl.
    + exfalso. apply Hgood, H.
Qed.

Lemma crossed_index_is_a_flagged_row (self : Grid) (threshold : Q)
    (idx : list Z) (m : Np.bool_array) (k : Z) :
  compute_antimeridian_faces self threshold = Ok (idx, m) ->
  In k idx ->
  exists lon n row,
    face_lon self = Ok lon /\ k = Z.of_nat n /\ nth_error lon n = Some row /\
    exists j, (j < length row)%nat /\ Spec.side_crosses row threshold j.
Proof.
  intros Hc Hk.
  destruct (compute_antimeridian_faces_ok _ _ _ _ Hc) as [mask [Hm [-> _]]].
  destruct (crossed_mask_2d_ok _ _ _ Hm) as [lon [Hl [_ [_ ->]]]].
  apply argwhere_spec in Hk as [n [-> Hflag]].
  assert (Hn : (n < length lon)%nat).
  { rewrite <- (length_map (row_sides threshold)), <- (length_map (existsb id)).
    apply nth_error_Some. unfold Np.any_axis1 in Hflag. rewrite Hflag. discriminate. }
  destruct (nth_error lon n) as [row|] eqn:Hrow; [|apply nth_error_None in Hrow; lia].
  exists lon, n, row. repeat split; try assumption.
  apply (flag_of_row threshold lon n row Hrow). exact Hflag.
Qed.

(** X18.  A larger threshold flags fewer faces: every face reported at a
    threshold is also reported at any smaller threshold for which the
    detection returns. *)
Theorem larger_threshold_flags_fewer_faces
    (self : Grid) (t1 t2 : Q) (idx1 idx2 : list Z) (m1 m2 : Np.bool_array) :
  (t1 <= t2)%Q ->
  compute_antimeridian_faces self t1 = Ok (idx1, m1) ->
  compute_antimeridian_faces self t2 = Ok (idx2, m2) ->
  Forall (fun k => In k idx1) idx2.
Proof.
  intros Hle H1 H2. apply Forall_forall. intros k Hk.
  destruct (crossed_index_is_a_flagged_row _ _ _ _ _ H2 Hk)
    as [lon [n [row [Hl [-> [Hrow [j [Hj Hc]]]]]]]].
  destruct (compute_antimeridian_faces_reports _ _ _ _ H1) as [lon' [Hl' Hrep]].
  rewrite Hl in Hl'. apply Ok_inj in Hl'. subst lon'.
  apply (Hrep n row Hrow). exists j. split; [exact Hj|].
  unfold Spec.side_crosses in *. eapply Qle_lt_trans; eassumption.
Qed.

Lemma side_within (lo hi threshold : Q) (row : list Q) (j : nat) :
  within lo hi row -> (hi - lo <= threshold)%Q -> (j < length row)%nat ->
  ~ Spec.side_crosses row threshold j.
Proof.
  intros Hw Hth Hj Hc. unfold Spec.side_crosses in Hc.
  unfold within in Hw. rewrite Forall_forall in Hw.
  assert (Hm : (S j mod length row < length row)%nat) by (apply Nat.mod_upper_bound; lia).
  pose proof (Hw _ (nth_In row 0%Q Hj)) as [Ha1 Ha2].
  pose proof (Hw _ (nth_In row 0%Q Hm)) as [Hb1 Hb2].
  set (a := nth j row 0%Q) in *. set (b := nth (S j mod length row) row 0%Q) in *.
  assert (Habs : (Qabs (b - a) <= hi - lo)%Q).
  { apply Qabs_Qle_condition. split; lra. }
  lra.
Qed.

Lemma gathered_within (self : Grid) (lo hi : Q) (lon : list (list Q)) :
  face_lon self = Ok lon ->
  within lo hi (Mesh2_node_x self) ->
  Forall (within lo hi) lon.
Proof.
  intros Hl Hw. pose proof (face_lon_gathers _ _ Hl) as HF.
  unfold within in *. rewrite Forall_forall in Hw. clear Hl.
  induction HF as [|row lrow t lon Hrow HF IH].
  - constructor.
  - constructor; [|exact IH].
    clear - Hrow Hw. induction Hrow as [|e v row lrow Hev Hrow IH].
    + constructor.
    + constructor; [|exact IH]. apply Hw. eapply index_In, Hev.
Qed.

(** X19.  A grid whose node longitudes span no more than 180 degrees has
    no crossing face: with a table that has rows and slots and names nodes
    only, the detection returns the empty tuple and
    [split_antimeridian_faces] returns [(None, None, None)]. *)
Theorem grid_within_180_degrees_is_not_split
    (self : Grid) (lo hi : Q) (lon : list (list Q)) :
  face_lon self = Ok lon ->
  Mesh2_face_nodes self <> [] ->
  Forall (fun row => row <> []) (Mesh2_face_nodes self) ->
  within lo hi (Mesh2_node_x self) ->
  (hi - lo <= default_threshold)%Q ->
  (exists m, compute_antimeridian_faces self default_threshold = Ok ([], m)) /\
  split_antimeridian_faces self = Ok NoneTriple.
Proof.
  intros Hl Hne Hrows Hw Hth.
  destruct (Forall2_empty_rows _ _ _ (face_lon_gathers _ _ Hl)) as [H1 H2].
  assert (Hne' : lon <> []) by (intros H; apply Hne, H1, H).
  assert (Hrows' : Forall (fun row => row <> []) lon).
  { apply Forall_forall. intros r Hr ->.
    assert (He : Exists (fun row : list Q => row = []) lon)
      by (apply Exists_exists; exists []; split; [exact Hr | reflexivity]).
    apply H2, Exists_exists in He as [r' [Hin ->]].
    rewrite Forall_forall in Hrows. apply (Hrows [] Hin). reflexivity. }
  pose proof (crossed_mask_2d_intro self default_threshold lon Hl Hne' Hrows') as Hm.
  assert (Hflags : Forall (fun flag => flag = false)
                          (Np.any_axis1 (map (row_sides default_threshold) lon))).
  { pose proof (gathered_within self lo hi lon Hl Hw) as Hin.
    unfold Np.any_axis1. rewrite map_map. apply Forall_map.
    eapply Forall_impl; [|exact Hin]. intros row Hrow. cbn beta.
    destruct (existsb id (row_sides default_threshold row)) eqn:E; [|reflexivity].
    apply row_sides_any in E as [j [Hj Hc]].
    exfalso. exact (side_within lo hi default_threshold row j Hrow Hth Hj Hc). }
  pose proof (compute_antimeridian_faces_no_flag self default_threshold _ Hm Hflags) as Hc.
  split; [eexists; exact Hc|].
  unfold split_antimeridian_faces, split_antimeridian_body. rewrite Hc. reflexivity.
Qed.

(** ** Rotating the nodes of the faces *)

Lemma rotate1_length {A} (row : list A) : length (rotate1 row) = length row.
Proof. destruct row; cbn; [reflexivity|]. rewrite length_app. cbn. lia. Qed.

Lemma rotate1_map {A B} (f : A -> B) (row : list A) :
  map f (rotate1 row) = rotate1 (map f row).
Proof. destruct row; cbn; [reflexivity|]. rewrite map_app. reflexivity. Qed.

Lemma rotate1_Forall {A} (P : A -> Prop) (row : list A) :
  Forall P (rotate1 row) <-> Forall P row.
Proof.
  destruct row as [|a row]; cbn [rotate1]; [reflexivity|].
  rewrite Forall_app. split.
  - intros [H1 H2]. inversion H2; subst. constructor; assumption.
  - intros H. inversion H; subst. split; [assumption|].
    constructor; [assumption | constructor].
Qed.

Lemma rotate1_Forall2 {A B} (R : A -> B -> Prop) (row : list A) (lrow : list B) :
  Forall2 R row lrow -> Forall2 R (rotate1 row) (rotate1 lrow).
Proof.
  intros H. destruct H as [|a b row lrow Hab H]; cbn [rotate1]; [constructor|].
  apply Forall2_app; [exact H | constructor; [exact Hab | constructor]].
Qed.

Lemma rotate1_nth (row : list Q) (j : nat) :
  (j < length row)%nat ->
  nth j (rotate1 row) 0%Q = nth (S j mod length row) row 0%Q.
Proof.
  destruct row as [|a rest]; cbn [rotate1 length]; [lia|]. intros Hj.
  destruct (Nat.eq_dec j (length rest)) as [->|E].
  - rewrite Nat.Div0.mod_same. rewrite app_nth2 by lia.
    rewrite Nat.sub_diag. reflexivity.
  - rewrite Nat.mod_small by lia. rewrite app_nth1 by lia. reflexivity.
Qed.

Lemma rotate1_side (threshold : Q) (row : list Q) (j : nat) :
  (j < length row)%nat ->
  (Spec.side_crosses (rotate1 row) threshold j <->
   Spec.side_crosses row threshold (S j mod length row)).
Proof.
  intros Hj. unfold Spec.side_crosses. rewrite rotate1_length.
  assert (Hm : (S j mod length row < length row)%nat)
    by (apply Nat.mod_upper_bound; lia).
  rewrite (rotate1_nth row j Hj), (rotate1_nth row _ Hm). reflexivity.
Qed.

(** A face keeps its flag when its nodes are rotated. *)
Lemma rotate1_flag (threshold : Q) (row : list Q) :
  existsb id (row_sides threshold (rotate1 row))
  = existsb id (row_sides threshold row).
Proof.
  apply Bool.eq_iff_eq_true. rewrite !row_sides_any, rotate1_length. split.
  - intros [j [Hj Hc]]. exists (S j mod length row)%nat. split.
    + apply Nat.mod_upper_bound. lia.
    + apply rotate1_side; assumption.
  - intros [j [Hj Hc]].
    exists ((j + (length row - 1)) mod length row)%nat.
    assert (Hm : ((j + (length row - 1)) mod length row < length row)%nat)
      by (apply Nat.mod_upper_bound; lia).
    split; [exact Hm|]. apply rotate1_side; [exact Hm|].
    replace (S ((j + (length row - 1)) mod length row) mod length row)%nat with j;
      [exact Hc|].
    destruct j as [|j].
    + rewrite Nat.add_0_l. rewrite (Nat.mod_small (length row - 1)%nat) by lia.
      replace (S (length row - 1))%nat with (length row) by lia.
      rewrite Nat.Div0.mod_same. reflexivity.
    + replace (S j + (length row - 1))%nat with (j + 1 * length row)%nat by lia.
      rewrite Nat.Div0.mod_add. rewrite (Nat.mod_small j) by lia.
      rewrite Nat.mod_small by lia. reflexivity.
Qed.

Lemma face_lon_rotate (self : Grid) :
  face_lon (with_face_nodes self (map rotate1 (Mesh2_face_nodes self)))
  = match face_lon self with
    | Ok lon => Ok (map rotate1 lon)
    | Raise e => Raise e
    end.
Proof.
  unfold face_lon, with_face_nodes. cbn [Mesh2_face_nodes Mesh2_node_x].
  set (t := Mesh2_face_nodes self). set (x := Mesh2_node_x self).
  assert (Hmap : map (map Np.astype_int32) (map rotate1 t)
                 = map rotate1 (map (map Np.astype_int32) t)).
  { rewrite !map_map. apply map_ext. intros r. apply rotate1_map. }
  rewrite Hmap. set (idx := map (map Np.astype_int32) t).
  destruct (take_cases x idx) as [[r [Hr _]] | [Hr Hbad]]; rewrite Hr.
  - unfold Np.take in *. apply mapM_Forall2 in Hr. apply mapM_Forall2.
    clear - Hr. induction Hr as [|row lrow idx r Hrow Hr IH]; cbn [map]; constructor.
    + apply mapM_Forall2. apply rotate1_Forall2. apply mapM_Forall2. exact Hrow.
    + exact IH.
  - destruct (take_cases x (map rotate1 idx)) as [[r [_ Hok]] | [Hr' _]];
      [|exact Hr'].
    exfalso. apply Hbad. rewrite Forall_map in Hok.
    eapply Forall_impl; [|exact Hok]. intros row Hrow. cbn beta in Hrow.
    exact (proj1 (rotate1_Forall _ _) Hrow).
Qed.

(** X20.  The detection does not depend on where the node list of a face
    starts: after moving the first node of every face to the end of its
    row, the detection reports the same faces or raises the same
    exception. *)
Theorem detection_ignores_the_starting_node (self : Grid) (threshold : Q) :
  Py.bind (compute_antimeridian_faces
             (with_face_nodes self (map rotate1 (Mesh2_face_nodes self))) threshold)
          (fun r => Ok (fst r))
  = Py.bind (compute_antimeridian_faces self threshold) (fun r => Ok (fst r)).
Proof.
  set (self' := with_face_nodes self (map rotate1 (Mesh2_face_nodes self))).
  pose proof (face_lon_rotate self) as Hrot. fold self' in Hrot.
  assert (Hflags : forall lon,
            Np.any_axis1 (map (row_sides threshold) (map rotate1 lon))
            = Np.any_axis1 (map (row_sides threshold) lon)).
  { intros lon. unfold Np.any_axis1. rewrite !map_map. apply map_ext.
    intros row. apply rotate1_flag. }
  assert (Hshape : forall lon : list (list Q),
            (map rotate1 lon = [] <-> lon = []) /\
            (Exists (fun row => row = []) (map rotate1 lon)
             <-> Exists (fun row => row = []) lon)).
  { intros lon. split.
    - destruct lon; split; intros; try reflexivity; discriminate.
    - rewrite Exists_map. split; intros H; (eapply Exists_impl; [|exact H]);
        intros row Hrow; cbn beta in *.
      + destruct row; [reflexivity|]. destruct row; discriminate.
      + subst row. reflexivity. }
  destruct (compute_antimeridian_faces_cases self threshold)
    as [[Hl Hc] | [[lon [Hl [Hbad Hc]]] | [lon [Hl [Hne [Hrows Hc]]]]]];
    rewrite Hl in Hrot.
  - destruct (compute_antimeridian_faces_cases self' threshold)
      as [[_ Hc'] | [[lon' [Hl' _]] | [lon' [Hl' _]]]]; try congruence.
  - destruct (compute_antimeridian_faces_cases self' threshold)
      as [[Hl' _] | [[lon' [Hl' [_ Hc']]] | [lon' [Hl' [Hne' [Hrows' _]]]]]];
      try congruence.
    exfalso. rewrite Hrot in Hl'. apply Ok_inj in Hl'. subst lon'.
    destruct (Hshape lon) as [S1 S2]. destruct Hbad as [Hb|Hb].
    + apply Hne', S1, Hb.
    + apply S2, Exists_exists in Hb as [r [Hin ->]].
      rewrite Forall_forall in Hrows'. apply (Hrows' [] Hin). reflexivity.
  - destruct (compute_antimeridian_faces_cases self' threshold)
      as [[Hl' _] | [[lon' [Hl' [Hbad' _]]] | [lon' [Hl' [_ [_ Hc']]]]]];
      try congruence.
    + exfalso. rewrite Hrot in Hl'. apply Ok_inj in Hl'. subst lon'.
      destruct (Hshape lon) as [S1 S2]. destruct Hbad' as [Hb|Hb].
      * apply Hne, S1, Hb.
      * apply S2, Exists_exists in Hb as [r [Hin ->]].
        rewrite Forall_forall in Hrows. apply (Hrows [] Hin). reflexivity.
    + rewrite Hrot in Hl'. apply Ok_inj in Hl'. subst lon'.
      cbn zeta in Hc, Hc'. rewrite Hflags in Hc'.
      destruct Hc as [[k [Hk Hc]] | [Hk [m Hc]]];
        destruct Hc' as [[k' [Hk' Hc']] | [Hk' [m' Hc']]];
        rewrite Hc, Hc'; try reflexivity.
      * exfalso. rewrite Hk in Hk'. apply Hk'. reflexivity.
      * exfalso. rewrite Hk' in Hk. apply Hk. reflexivity.
Qed.

(** ** The candidates of the split *)

Lemma Forall2_map_same {A B} (R : A -> B -> Prop) (f : A -> B) (l : list A) :
  Forall (fun a => R a (f a)) l -> Forall2 R l (map f l).
Proof.
  intros H. induction H as [|a l Ha H IH]; cbn [map]; constructor; assumption.
Qed.

Lemma left_candidate_value (v : Q) :
  (-180 <= v <= 180)%Q ->
  (Spec.clip1 (if Qgtb v 0 then v - 360 else v)
   == if Qgtb v 0 then -180 else v)%Q.
Proof.
  intros [H1 H2]. unfold Spec.clip1.
  destruct (Qgtb v 0) eqn:E.
  - apply Qgtb_gt in E.
    destruct (Q.max_spec (v - 360) (-180)) as [[Hc Hm]|[Hc Hm]];
      destruct (Q.min_spec (Qmax (v - 360) (-180)) 180) as [[Hd Hn]|[Hd Hn]]; lra.
  - apply Qltb_ge in E.
    destruct (Q.max_spec v (-180)) as [[Hc Hm]|[Hc Hm]];
      destruct (Q.min_spec (Qmax v (-180)) 180) as [[Hd Hn]|[Hd Hn]]; lra.
Qed.

Lemma right_candidate_value (v : Q) :
  (-180 <= v <= 180)%Q ->
  (Spec.clip1 (if Qltb v 0 then v + 360 else v)
   == if Qltb v 0 then 180 else v)%Q.
Proof.
  intros [H1 H2]. unfold Spec.clip1.
  destruct (Qltb v 0) eqn:E.
  - apply Qltb_lt in E.
    destruct (Q.max_spec (v + 360) (-180)) as [[Hc Hm]|[Hc Hm]];
      destruct (Q.min_spec (Qmax (v + 360) (-180)) 180) as [[Hd Hn]|[Hd Hn]]; lra.
  - apply Qltb_ge in E.
    destruct (Q.max_spec v (-180)) as [[Hc Hm]|[Hc Hm]];
      destruct (Q.min_spec (Qmax v (-180)) 180) as [[Hd Hn]|[Hd Hn]]; lra.
Qed.

(** X21.  For faces with longitudes in [-180, 180] the shift and the clip
    together move every shifted node onto the seam: the left candidate
    replaces each positive longitude by -180 and keeps the others, the
    right candidate replaces each negative longitude by 180 and keeps the
    others. *)
Theorem shifted_nodes_collapse_onto_the_seam (fx fy : list (list Q)) :
  Forall (within (-180) 180) fx ->
  Forall2 (Forall2 (fun v l => (l == if Qgtb v 0 then -180 else v)%Q))
          fx (left_x (split_candidates fx fy)) /\
  Forall2 (Forall2 (fun v r => (r == if Qltb v 0 then 180 else v)%Q))
          fx (right_x (split_candidates fx fy)).
Proof.
  intros Hw. destruct (split_candidates_spec fx fy) as [-> [-> _]].
  split; apply Forall2_map_same; (eapply Forall_impl; [|exact Hw]);
    intros row Hrow; cbn beta; apply Forall2_map_same;
    (eapply Forall_impl; [|exact Hrow]); intros v Hv; cbn beta.
  - apply left_candidate_value, Hv.
  - apply right_candidate_value, Hv.
Qed.

(** A row strictly inside (-180, 180) with a side longer than 180 degrees
    keeps both candidates. *)
Lemma crossing_row_keeps_both (row : list Q) (j : nat) :
  Forall (fun v => (-180 < v < 180)%Q) row ->
  (j < length row)%nat ->
  Spec.side_crosses row default_threshold j ->
  forallb (fun v => Qeq_bool v (-180)%Q) (Spec.left_candidate row) = false /\
  forallb (fun v => Qeq_bool v 180%Q) (Spec.right_candidate row) = false.
Proof.
  intros Hin Hj Hc. unfold Spec.side_crosses, default_threshold in Hc.
  rewrite Forall_forall in Hin.
  assert (Hm : (S j mod length row < length row)%nat)
    by (apply Nat.mod_upper_bound; lia).
  pose proof (nth_In row 0%Q Hj) as Ia. pose proof (nth_In row 0%Q Hm) as Ib.
  pose proof (Hin _ Ia) as Ha. pose proof (Hin _ Ib) as Hb.
  set (a := nth j row 0%Q) in *. set (b := nth (S j mod length row) row 0%Q) in *.
  assert (Hsign : ((a <= 0 /\ 0 <= b) \/ (b <= 0 /\ 0 <= a))%Q).
  { destruct Ha as [Ha1 Ha2]. destruct Hb as [Hb1 Hb2].
    revert Hc. apply Qabs_case; intros Hs Hc.
    - left. split; lra.
    - right. split; lra. }
  assert (Hleft : forall v, In v row -> (v <= 0)%Q ->
            forallb (fun v => Qeq_bool v (-180)%Q) (Spec.left_candidate row) = false).
  { intros v Iv Hv.
    destruct (forallb (fun v => Qeq_bool v (-180)%Q) (Spec.left_candidate row)) eqn:E;
      [|reflexivity].
    exfalso. rewrite forallb_forall in E.
    specialize (E (Spec.clip1 (if Qgtb v 0 then (v - 360)%Q else v))).
    assert (Hmem : In (Spec.clip1 (if Qgtb v 0 then (v - 360)%Q else v))
                      (Spec.left_candidate row)).
    { unfold Spec.left_candidate. apply in_map_iff. exists v. split; [reflexivity | exact Iv]. }
    apply E, Qeq_bool_iff in Hmem.
    pose proof (Hin _ Iv) as [Hv1 Hv2].
    rewrite left_candidate_value in Hmem by (split; lra).
    replace (Qgtb v 0) with false in Hmem by (symmetry; apply Qltb_ge; exact Hv).
    lra. }
  assert (Hright : forall v, In v row -> (0 <= v)%Q ->
            forallb (fun v => Qeq_bool v 180%Q) (Spec.right_candidate row) = false).
  { intros v Iv Hv.
    destruct (forallb (fun v => Qeq_bool v 180%Q) (Spec.right_candidate row)) eqn:E;
      [|reflexivity].
    exfalso. rewrite forallb_forall in E.
    specialize (E (Spec.clip1 (if Qltb v 0 then (v + 360)%Q else v))).
    assert (Hmem : In (Spec.clip1 (if Qltb v 0 then (v + 360)%Q else v))
                      (Spec.right_candidate row)).
    { unfold Spec.right_candidate. apply in_map_iff. exists v. split; [reflexivity | exact Iv]. }
    apply E, Qeq_bool_iff in Hmem.
    pose proof (Hin _ Iv) as [Hv1 Hv2].
    rewrite right_candidate_value in Hmem by (split; lra).
    replace (Qltb v 0) with false in Hmem by (symmetry; apply Qltb_ge; exact Hv).
    lra. }
  destruct Hsign as [[H1 H2] | [H1 H2]].
  - split; [apply (Hleft a Ia H1) | apply (Hright b Ib H2)].
  - split; [apply (Hleft b Ib H1) | apply (Hright a Ia H2)].
Qed.

Lemma Forall2_Forall_r {A B} (R : A -> B -> Prop) (P : B -> Prop)
    (l : list A) (l' : list B) :
  Forall2 R l l' -> (forall a b, In a l -> R a b -> P b) -> Forall P l'.
Proof.
  intros HF. induction HF as [|a b l l' Hab HF IH]; intros H; constructor.
  - apply (H a b); [left; reflexivity | exact Hab].
  - apply IH. intros a' b' Hin. apply H. right. exact Hin.
Qed.

Lemma index_nat {A} (l : list A) (n : nat) (a : A) :
  Py.index l (Z.of_nat n) = Ok a -> nth_error l n = Some a.
Proof.
  intros H. apply index_ok_iff in H as [k [Hp Hn]].
  assert (Hk : (k < length l)%nat) by (apply nth_error_Some; rewrite Hn; discriminate).
  unfold position in Hp.
  destruct ((0 <=? Z.of_nat n) && (Z.of_nat n <? Z.of_nat (length l))) eqn:E.
  - injection Hp as <-. rewrite Nat2Z.id in Hn. exact Hn.
  - destruct ((- Z.of_nat (length l) <=? Z.of_nat n) && (Z.of_nat n <? 0)) eqn:E2;
      [|discriminate].
    apply andb_prop in E2 as [_ E2]. apply Z.ltb_lt in E2. lia.
Qed.

(** The rows the split picks are rows of [face_lon] with a crossing side. *)
Lemma picked_rows_cross (threshold : Q) (lon picked : list (list Q)) :
  Np.take_rows lon (Np.argwhere (Np.any_axis1 (map (row_sides threshold) lon)))
  = Ok picked ->
  Forall (fun row => In row lon /\
                     exists j, (j < length row)%nat /\
                               Spec.side_crosses row threshold j) picked.
Proof.
  intros H. unfold Np.take_rows in H. apply mapM_Forall2 in H.
  eapply Forall2_Forall_r; [exact H|].
  intros k row Hk Hrow. cbn beta in Hrow. split; [eapply index_In, Hrow|].
  apply argwhere_spec in Hk as [n [-> Hflag]].
  apply index_nat in Hrow.
  apply (flag_of_row threshold lon n row Hrow). exact Hflag.
Qed.

(** X22.  Away from the seam no crossing face loses a candidate: when every
    node longitude lies strictly between -180 and 180, the split marks
    neither the left nor the right candidate of any crossing face as
    excluded. *)
Theorem crossing_faces_off_the_seam_keep_both_candidates
    (self : Grid) (idx : list Z) (m : Np.bool_array) :
  compute_antimeridian_faces self default_threshold = Ok (idx, m) ->
  idx <> [] ->
  length (Mesh2_node_y self) = length (Mesh2_node_x self) ->
  Forall (Forall int32_range) (Mesh2_face_nodes self) ->
  Forall (fun v => (-180 < v < 180)%Q) (Mesh2_node_x self) ->
  exists locals,
    split_antimeridian_body self = Ok (Some locals) /\
    length (left_exclude locals) = length idx /\
    length (right_exclude locals) = length idx /\
    Forall (fun excluded => excluded = false) (left_exclude locals) /\
    Forall (fun excluded => excluded = false) (right_exclude locals).
Proof.
  intros Hc Hne Hy Hrange Hx.
  destruct (split_antimeridian_body_crossing _ _ _ Hc Hne Hy Hrange)
    as [lon [picked [fy [Hl [Hidx [Hp Hb]]]]]].
  exists (split_candidates picked fy). split; [exact Hb|].
  destruct (split_candidates_spec picked fy) as [Hlx [Hrx [Hle Hre]]].
  rewrite Hle, Hre, Hlx, Hrx. rewrite !length_map.
  assert (Hlen : length picked = length idx).
  { unfold Np.take_rows in Hp. apply mapM_length in Hp. exact Hp. }
  split; [exact Hlen|]. split; [exact Hlen|].
  rewrite Hidx in Hp. apply picked_rows_cross in Hp.
  assert (Hstrict : Forall (Forall (fun v => (-180 < v < 180)%Q)) lon).
  { pose proof (face_lon_gathers _ _ Hl) as HF. rewrite Forall_forall in Hx.
    eapply Forall2_Forall_r; [exact HF|]. intros row lrow _ Hrow. cbn beta in Hrow.
    eapply Forall2_Forall_r; [exact Hrow|]. intros e v _ Hev. cbn beta in Hev.
    apply Hx. eapply index_In, Hev. }
  rewrite Forall_forall in Hstrict.
  split; rewrite !map_map; apply Forall_map; (eapply Forall_impl; [|exact Hp]);
    intros row [Hin [j [Hj Hcross]]]; cbn beta;
    destruct (crossing_row_keeps_both row j (Hstrict row Hin) Hj Hcross) as [H1 H2];
    assumption.
Qed.

(** X23.  The split reads the table through [astype(int)], the detection
    through [astype(np.int32)].  When a crossing face has an entry that
    names no node as a 64-bit integer (such as the fill value 4294967295,
    which the detection reads as -1), [split_antimeridian_faces] raises
    [IndexError] although the detection has returned. *)
Theorem split_raises_on_entries_the_detection_accepts
    (self : Grid) (idx : list Z) (m : Np.bool_array)
    (k : Z) (row : list Z) (e : Z) :
  compute_antimeridian_faces self default_threshold = Ok (idx, m) ->
  In k idx ->
  Py.index (Mesh2_face_nodes self) k = Ok row ->
  In e row ->
  position (nMesh2_node self) (Np.astype_int64 e) = None ->
  split_antimeridian_faces self = Raise IndexError.
Proof.
  intros Hc Hk Hrow He Hpos.
  destruct (compute_antimeridian_faces_ok _ _ _ _ Hc) as [mask [Hm [Hidx _]]].
  destruct (crossed_mask_2d_ok _ _ _ Hm) as [lon [Hl [_ [_ Hmask]]]].
  destruct (take_rows_argwhere (Mesh2_face_nodes self) (Np.any_axis1 mask) idx)
    as [trows Ht].
  { unfold Np.any_axis1. rewrite length_map, Hmask, length_map.
    symmetry. apply (Forall2_length (face_lon_gathers _ _ Hl)). }
  { intros k' Hk'. rewrite <- Hidx. exact Hk'. }
  assert (Hin : In row trows).
  { unfold Np.take_rows in Ht. apply mapM_Forall2 in Ht.
    clear - Ht Hk Hrow. induction Ht as [|i r idx trows Hi Ht IH]; [destruct Hk|].
    destruct Hk as [->|Hk].
    - left. congruence.
    - right. apply IH, Hk. }
  assert (Hx : Np.take (Mesh2_node_x self) (map (map Np.astype_int64) trows)
               = Raise IndexError).
  { destruct (take_cases (Mesh2_node_x self) (map (map Np.astype_int64) trows))
      as [[r [_ Hok]] | [Hr _]]; [|exact Hr].
    exfalso. rewrite Forall_map, Forall_forall in Hok.
    specialize (Hok row Hin). rewrite Forall_map, Forall_forall in Hok.
    apply (Hok e He). exact Hpos. }
  unfold split_antimeridian_faces, split_antimeridian_body.
  rewrite Hc. cbn [Py.bind fst].
  destruct idx as [|k0 idx]; [destruct Hk|]. cbn [length Nat.eqb].
  rewrite Ht. cbn [Py.bind]. rewrite Hx. reflexivity.
Qed.

(** ** The further properties on sample grids *)

Module MoreWitnesses.

Local Open Scope string_scope.
Local Open Scope Z_scope.

Local Abbreviation K := Kernel.get_all_face_area_from_coords.

Lemma filled_cache_is_never_replaced_witness :
  self_after (compute_face_areas K "triangular" 2 Samples.two_quads_cached)
  = Samples.two_quads_cached /\
  self_after (face_areas K Samples.two_quads_cached) = Samples.two_quads_cached /\
  self_after (calculate_total_face_area K Np.exact "triangular" 2 Samples.two_quads_cached)
  = Samples.two_quads_cached /\
  self_after (integrate K Np.exact [("psi", Np.vector [3; 5]%Q)] "triangular" 2 Samples.two_quads_cached)
  = Samples.two_quads_cached.
Proof.
  exact (filled_cache_is_never_replaced K Np.exact Samples.two_quads_cached
           [4 # 4; 8 # 4]%Q "triangular" 2 [("psi", Np.vector [3; 5]%Q)] eq_refl).
Defined.

Lemma cache_stays_one_area_per_face_witness :
  cache_per_face (self_after (compute_face_areas K "triangular" 4 Samples.two_quads)) /\
  cache_per_face (self_after (face_areas K Samples.two_quads)) /\
  cache_per_face
    (self_after (calculate_total_face_area K Np.exact "triangular" 4 Samples.two_quads)) /\
  cache_per_face
    (self_after (integrate K Np.exact [("psi", Np.vector [3; 5]%Q)] "triangular" 4 Samples.two_quads)).
Proof.
  apply (cache_stays_one_area_per_face K Np.exact Samples.two_quads "triangular" 4
           [("psi", Np.vector [3; 5]%Q)]).
  - exact spec_kernel_per_face.
  - intros cached H. discriminate H.
Defined.

Lemma failed_integrate_fills_the_cache_witness :
  integrate K Np.exact [] "triangular" 4 Samples.two_quads
  = mkOutcome (Raise IndexError) Samples.two_quads_cached [] /\
  value (integrate K Np.exact [("psi", Np.vector [1; 1; 1]%Q)] "triangular" 4 Samples.two_quads)
  = Raise ValueError /\
  self_after (integrate K Np.exact [("psi", Np.vector [1; 1; 1]%Q)] "triangular" 4 Samples.two_quads)
  = Samples.two_quads_cached.
Proof.
  apply (failed_integrate_fills_the_cache K Np.exact Samples.two_quads "triangular" 4
           [4 # 4; 8 # 4]%Q "psi" [1; 1; 1]%Q []).
  - reflexivity.
  - reflexivity.
  - cbn. lia.
Defined.

Lemma cached_results_ignore_rule_and_order_witness :
  calculate_total_face_area K Np.exact "gaussian" 99 Samples.two_quads_cached
  = mkOutcome (Ok (Np.sum Np.exact [4 # 4; 8 # 4]%Q)) Samples.two_quads_cached [] /\
  integrate K Np.exact [("psi", Np.vector [3; 5]%Q)] "gaussian" 99 Samples.two_quads_cached
  = integrate K Np.exact [("psi", Np.vector [3; 5]%Q)] "triangular" 4 Samples.two_quads_cached.
Proof.
  exact (cached_results_ignore_rule_and_order K K Np.exact Samples.two_quads_cached
           [4 # 4; 8 # 4]%Q "gaussian" "triangular" 99 4 [("psi", Np.vector [3; 5]%Q)] eq_refl).
Defined.

Lemma areas_need_z_above_dimension_2_witness :
  compute_face_areas K "triangular" 4 MoreSamples.no_z
  = mkOutcome (Raise AttributeError) MoreSamples.no_z [] /\
  face_areas K MoreSamples.no_z = mkOutcome (Raise AttributeError) MoreSamples.no_z [] /\
  calculate_total_face_area K Np.exact "triangular" 4 MoreSamples.no_z
  = mkOutcome (Raise AttributeError) MoreSamples.no_z [] /\
  integrate K Np.exact [("psi", Np.vector [1]%Q)] "triangular" 4 MoreSamples.no_z
  = mkOutcome (Raise AttributeError) MoreSamples.no_z [].
Proof.
  apply (areas_need_z_above_dimension_2 K Np.exact MoreSamples.no_z "triangular" 4
           [("psi", Np.vector [1]%Q)]).
  - cbn. lia.
  - reflexivity.
  - reflexivity.
Defined.

Lemma encode_as_scrip_fills_the_cache_witness :
  encode_as K string MoreSamples.encode_ugrid MoreSamples.encode_exodus
            MoreSamples.encode_scrip init_ds_var_names "scrip" Samples.two_quads
  = mkOutcome (Ok "scrip") Samples.two_quads_cached [].
Proof.
  exact (encode_as_scrip_fills_the_cache K string MoreSamples.encode_ugrid
           MoreSamples.encode_exodus MoreSamples.encode_scrip init_ds_var_names
           Samples.two_quads eq_refl).
Defined.

Lemma mesh_type_is_not_always_a_grid_type_witness :
  init_ds_var_names = init_ds_var_names /\
  ("exo" = "exo" \/ "exo" = "shp") /\
  encode_as K string MoreSamples.encode_ugrid MoreSamples.encode_exodus
            MoreSamples.encode_scrip init_ds_var_names "exo"
            (grid_of MoreSamples.unit_square)
  = mkOutcome (Raise RuntimeError) (grid_of MoreSamples.unit_square) [].
Proof.
  destruct (mesh_type_is_not_always_a_grid_type unit
              MoreSamples.read_exodus MoreSamples.read_scrip
              MoreSamples.read_ugrid MoreSamples.read_shpfile
              K string MoreSamples.encode_ugrid MoreSamples.encode_exodus
              MoreSamples.encode_scrip
              "exo" init_ds_var_names init_ds_var_names tt MoreSamples.unit_square
              (grid_of MoreSamples.unit_square) eq_refl)
    as [Hn Hrest].
  - discriminate.
  - split; [exact Hn|]. apply Hrest. discriminate.
Defined.

End MoreWitnesses.

Module DetectionWitnesses.

Local Open Scope string_scope.
Local Open Scope Z_scope.

Local Abbreviation K := Kernel.get_all_face_area_from_coords.

Lemma vertex_grid_is_never_split_witness :
  face_lon (grid_of (mkDs [170; -170; -175; 175]%Q "degrees_east" [0; 0; 10; 10]%Q
                          None [[0; 1; 2; 3]] 2))
  = Ok [map (fun row => nth 0 row 0%Q) MoreSamples.crossing_vertices] /\
  split_antimeridian_faces
    (grid_of (mkDs [170; -170; -175; 175]%Q "degrees_east" [0; 0; 10; 10]%Q
                   None [[0; 1; 2; 3]] 2))
  = Raise TypeError.
Proof.
  destruct (vertex_grid_is_never_split MoreSamples.crossing_vertices
              (mkDs [170; -170; -175; 175]%Q "degrees_east" [0; 0; 10; 10]%Q
                    None [[0; 1; 2; 3]] 2))
    as [Hlon [Hcross _]].
  - repeat constructor.
  - reflexivity.
  - cbn. lia.
  - split; [exact Hlon|]. apply Hcross. exists 0%nat. split; [cbn; lia|].
    unfold Spec.side_crosses, default_threshold. cbn. reflexivity.
Defined.

Lemma vertex_grid_areas_are_spherical_witness :
  areas_from_coords K
    (grid_of (mkDs [170; -170; -175; 175]%Q "degrees_east" [0; 0; 10; 10]%Q
                   None [[0; 1; 2; 3]] 2)) "triangular" 4
  = K (map (fun row => nth 0 row 0%Q) MoreSamples.crossing_vertices)
      (map (fun row => nth 1 row 0%Q) MoreSamples.crossing_vertices)
      (repeat 0%Q 4) [[0; 1; 2; 3]] 2 "triangular" 4 "spherical" /\
  (@None (list Q) = None <-> 2 = 2).
Proof.
  apply (vertex_grid_areas_are_spherical K MoreSamples.crossing_vertices
           (mkDs [170; -170; -175; 175]%Q "degrees_east" [0; 0; 10; 10]%Q
                 None [[0; 1; 2; 3]] 2) "triangular" 4).
  - repeat constructor.
  - reflexivity.
  - cbn. lia.
Defined.

Lemma crossed_indices_are_sorted_rows_witness :
  StronglySorted Z.lt [0; 1] /\
  Forall (fun k => 0 <= k < Z.of_nat (nMesh2_face Samples.two_crossing)) [0; 1] /\
  length [0; 1] <> 1%nat.
Proof.
  exact (crossed_indices_are_sorted_rows Samples.two_crossing default_threshold
           [0; 1] (Np.Arr2 [[true; false; true; false]; [true; false; true; false]])
           eq_refl).
Defined.

Lemma lone_crossing_face_raises_type_error_witness :
  compute_antimeridian_faces MoreSamples.one_of_two_crossing default_threshold
  = Raise TypeError.
Proof.
  apply (lone_crossing_face_raises_type_error MoreSamples.one_of_two_crossing
           default_threshold
           [[170; -170; -170; 170]; [10; 20; 20; 10]]%Q 0
           [170; -170; -170; 170]%Q).
  - reflexivity.
  - repeat constructor; discriminate.
  - reflexivity.
  - exists 0%nat. split; [cbn; lia|].
    unfold Spec.side_crosses, default_threshold. cbn. reflexivity.
  - intros n' row' Hn' Hrow' Hcross.
    destruct n' as [|[|n']]; [contradiction| |destruct n'; discriminate].
    cbn in Hrow'. injection Hrow' as <-.
    apply row_sides_any in Hcross. discriminate Hcross.
Defined.

Lemma larger_threshold_flags_fewer_faces_witness :
  Forall (fun k => In k [0; 1]) [0; 1].
Proof.
  apply (larger_threshold_flags_fewer_faces Samples.two_crossing 100%Q 180%Q
           [0; 1] [0; 1]
           (Np.Arr2 [[true; false; true; false]; [true; false; true; false]])
           (Np.Arr2 [[true; false; true; false]; [true; false; true; false]])).
  - unfold Qle. cbn. lia.
  - reflexivity.
  - reflexivity.
Defined.

Lemma grid_within_180_degrees_is_not_split_witness :
  (exists m, compute_antimeridian_faces
               (Samples.one_face [10; 20; 30; 40]%Q) default_threshold
             = Ok ([], m)) /\
  split_antimeridian_faces (Samples.one_face [10; 20; 30; 40]%Q) = Ok NoneTriple.
Proof.
  apply (grid_within_180_degrees_is_not_split
           (Samples.one_face [10; 20; 30; 40]%Q) 10%Q 40%Q [[10; 20; 30; 40]]%Q).
  - reflexivity.
  - discriminate.
  - repeat constructor; discriminate.
  - unfold within. repeat constructor; unfold Qle; cbn; lia.
  - unfold default_threshold, Qle. cbn. lia.
Defined.

Lemma shifted_nodes_collapse_onto_the_seam_witness :
  Forall2 (Forall2 (fun v l => (l == if Qgtb v 0 then -180 else v)%Q))
          [[170; -170; -170; 170]]%Q
          (left_x (split_candidates [[170; -170; -170; 170]]%Q [[0; 0; 10; 10]]%Q)) /\
  Forall2 (Forall2 (fun v r => (r == if Qltb v 0 then 180 else v)%Q))
          [[170; -170; -170; 170]]%Q
          (right_x (split_candidates [[170; -170; -170; 170]]%Q [[0; 0; 10; 10]]%Q)).
Proof.
  apply (shifted_nodes_collapse_onto_the_seam
           [[170; -170; -170; 170]]%Q [[0; 0; 10; 10]]%Q).
  unfold within. repeat constructor; unfold Qle; cbn; lia.
Defined.

Lemma crossing_faces_off_the_seam_keep_both_candidates_witness :
  exists locals,
    split_antimeridian_body Samples.two_crossing = Ok (Some locals) /\
    length (left_exclude locals) = length [0; 1] /\
    length (right_exclude locals) = length [0; 1] /\
    Forall (fun excluded => excluded = false) (left_exclude locals) /\
    Forall (fun excluded => excluded = false) (right_exclude locals).
Proof.
  apply (crossing_faces_off_the_seam_keep_both_candidates Samples.two_crossing
           [0; 1] (Np.Arr2 [[true; false; true; false]; [true; false; true; false]])).
  - reflexivity.
  - discriminate.
  - reflexivity.
  - unfold int32_range. cbn. repeat constructor; lia.
  - repeat constructor; unfold Qlt; cbn; lia.
Defined.

Lemma split_raises_on_entries_the_detection_accepts_witness :
  split_antimeridian_faces MoreSamples.wide_fill = Raise IndexError.
Proof.
  apply (split_raises_on_entries_the_detection_accepts MoreSamples.wide_fill
           [0; 1] (Np.Arr2 [[true; false; false; true]; [true; false; false; true]])
           0 [0; 1; 3; 4294967295] 4294967295).
  - reflexivity.
  - left. reflexivity.
  - reflexivity.
  - right. right. right. left. reflexivity.
  - reflexivity.
Defined.

End DetectionWitnesses.

Module ConstructionWitnesses.

Local Open Scope string_scope.
Local Open Scope Z_scope.

Lemma init_from_vertices_needs_a_vertex_with_two_coordinates_witness :
  exists c,
    init unit (fun _ => Ok "ugrid") MoreSamples.read_exodus MoreSamples.read_scrip
         MoreSamples.read_ugrid MoreSamples.read_shpfile
         (NdArray unit MoreSamples.eastern_vertices) = Ok c /\
    _face_areas (grid c) = None.
Proof.
  apply (init_from_vertices_needs_a_vertex_with_two_coordinates unit
           (fun _ => Ok "ugrid") MoreSamples.read_exodus MoreSamples.read_scrip
           MoreSamples.read_ugrid MoreSamples.read_shpfile
           MoreSamples.eastern_vertices).
  - repeat constructor.
  - exists [10; 0]%Q, [[20; 0]; [30; 10]; [40; 10]]%Q.
    split; [reflexivity | cbn; lia].
Defined.

End ConstructionWitnesses.
